(** * Session memory, provider routing and response normalisation

    A shallow embedding of the chat core of the application:
    - [src/lib/memory.ts]: the [ChatMemory] class and the [getChatMemory]
      singleton accessor;
    - [src/app/api/pollinations/text/route.ts]: the [POST] handler, which
      stores the user turn, injects the stored context into the prompt,
      selects a provider, dispatches one request and normalises the reply;
    - [src/app/api/local/route.ts]: the response-extraction switch of
      [generateText].

    Conventions of the embedding.
    - A JavaScript string is a [string] of bytes (UTF-8).  Case mapping and
      [trim] are the ASCII ones.
    - A JSON number is an integer [Z]; fractions and exponents are outside
      the model.  Numbers computed by [parseFloat]/[parseInt] are kept
      symbolic ([Http.NumExpr]).
    - [undefined] is [None] in an [option]; for a scalar request field the
      same [None] also stands for [null].
    - The outside world is explicit: the table behind [db.chatMemory], the
      module-level singleton, the log of [fetch] calls and counters live in
      [World]; what the world answers (network replies, storage failures,
      the clock and the random source) is given by an [Env]. *)

From Stdlib Require Import String Ascii List ZArith Bool Arith Lia DecimalString.
Import ListNotations.
Local Open Scope string_scope.
Set Warnings "-register-all".

(** ** JavaScript strings *)

Module JsString.

Definition LF : string := String "010"%char EmptyString.
Definition DQ : string := String "034"%char EmptyString.

(** [s.startsWith(p)] *)
Definition startsWith (s p : string) : bool := String.prefix p s.

(** [s.endsWith(p)] *)
Definition endsWith (s p : string) : bool :=
  let n := String.length s in
  let m := String.length p in
  (m <=? n)%nat && (substring (n - m) m s =? p).

(** [s.includes(p)] *)
Definition includes (s p : string) : bool :=
  match index 0 p s with Some _ => true | None => false end.

Definition is_upper (c : ascii) : bool :=
  let n := nat_of_ascii c in ((65 <=? n) && (n <=? 90))%nat.

Definition is_lower (c : ascii) : bool :=
  let n := nat_of_ascii c in ((97 <=? n) && (n <=? 122))%nat.

Definition is_digit (c : ascii) : bool :=
  let n := nat_of_ascii c in ((48 <=? n) && (n <=? 57))%nat.

Definition is_alnum (c : ascii) : bool := is_upper c || is_lower c || is_digit c.

Fixpoint map_chars (f : ascii -> ascii) (s : string) : string :=
  match s with
  | EmptyString => EmptyString
  | String c r => String (f c) (map_chars f r)
  end.

(** [s.toUpperCase()] and [s.toLowerCase()] on ASCII letters. *)
Definition toUpperCase : string -> string :=
  map_chars (fun c => if is_lower c then ascii_of_nat (nat_of_ascii c - 32) else c).

Definition toLowerCase : string -> string :=
  map_chars (fun c => if is_upper c then ascii_of_nat (nat_of_ascii c + 32) else c).

(** White space removed by [s.trim()] (ASCII part). *)
Definition is_space (c : ascii) : bool :=
  let n := nat_of_ascii c in ((9 <=? n) && (n <=? 13) || (n =? 32))%nat.

Fixpoint trimStart (s : string) : string :=
  match s with
  | String c r => if is_space c then trimStart r else s
  | EmptyString => EmptyString
  end.

Fixpoint trimEnd (s : string) : string :=
  match s with
  | EmptyString => EmptyString
  | String c r =>
      match trimEnd r with
      | EmptyString => if is_space c then EmptyString else String c EmptyString
      | r' => String c r'
      end
  end.

Definition trim (s : string) : string := trimEnd (trimStart s).

Definition hex_digit (upper : bool) (n : nat) : ascii :=
  if (n <? 10)%nat then ascii_of_nat (48 + n)
  else ascii_of_nat ((if upper then 55 else 87) + n).

Definition mem_char (c : ascii) (set : string) : bool :=
  existsb (Ascii.eqb c) (list_ascii_of_string set).

Definition percent (c : ascii) : string :=
  let n := nat_of_ascii c in
  String "%" (String (hex_digit true (n / 16)) (String (hex_digit true (n mod 16)) "")).

(** [encodeURIComponent(s)]: every byte is escaped except the unreserved
    marks. *)
Fixpoint encodeURIComponent (s : string) : string :=
  match s with
  | EmptyString => EmptyString
  | String c r =>
      (if is_alnum c || mem_char c "-_.!~*'()" then String c "" else percent c)
        ++ encodeURIComponent r
  end.

(** The [application/x-www-form-urlencoded] byte serializer used by
    [URLSearchParams.prototype.toString]. *)
Fixpoint formEncode (s : string) : string :=
  match s with
  | EmptyString => EmptyString
  | String c r =>
      (if is_alnum c || mem_char c "*-._" then String c ""
       else if Ascii.eqb c " " then "+"
       else percent c) ++ formEncode r
  end.

(** [params.toString()] for a [URLSearchParams] filled by [append]. *)
Definition searchParamsToString (params : list (string * string)) : string :=
  String.concat "&" (map (fun kv => formEncode (fst kv) ++ "=" ++ formEncode (snd kv)) params).

(** [String(n)] for an integer. *)
Definition ofZ (n : Z) : string := NilZero.string_of_int (Z.to_int n).

End JsString.

(** ** JSON values and property access *)

Module Js.

Inductive json : Type :=
| JNull
| JBool (b : bool)
| JNum (n : Z)
| JStr (s : string)
| JArr (items : list json)
| JObj (fields : list (string * json)).

(** A JavaScript value read out of a payload: [None] is [undefined]. *)
Definition value := option json.

Inductive exn : Type :=
| TypeError                       (* property read on null or undefined *)
| SyntaxError                     (* response.json() on a body that is not JSON *)
| FetchFailed                     (* fetch rejected: no response *)
| StorageError                    (* the storage client rejected the operation *)
| ApiError (message : string).    (* thrown by the handler itself *)

Inductive result (A : Type) : Type :=
| Val (a : A)
| Threw (e : exn).
Arguments Val {A} a.
Arguments Threw {A} e.

Definition bind {A B} (r : result A) (k : A -> result B) : result B :=
  match r with Val a => k a | Threw e => Threw e end.

(** Truthiness of a value, as tested by [!v], [v || d] and [v ? a : b]. *)
Definition truthy (v : value) : bool :=
  match v with
  | None | Some JNull => false
  | Some (JBool b) => b
  | Some (JNum n) => negb (n =? 0)%Z
  | Some (JStr s) => negb (s =? "")
  | Some (JArr _) | Some (JObj _) => true
  end.

Fixpoint lookup (k : string) (fields : list (string * json)) : value :=
  match fields with
  | [] => None
  | (k', v) :: rest => if k' =? k then Some v else lookup k rest
  end.

(** [o.k] on a value that is neither null nor undefined, for a name [k]
    that is not an array index nor a built-in property: only objects have
    such a member. *)
Definition member (o : json) (k : string) : value :=
  match o with
  | JObj fields => lookup k fields
  | _ => None
  end.

(** [o[0]] on a value that is neither null nor undefined: the first
    element of an array, the member ["0"] of an object, the first character
    of a string (its first byte here; the code only goes on to read a named
    member of it, which a string does not have). *)
Definition index0 (o : json) : value :=
  match o with
  | JArr items => hd_error items
  | JObj fields => lookup "0" fields
  | JStr (String c _) => Some (JStr (String c ""))
  | _ => None
  end.

(** [v.k]: throws on null and undefined. *)
Definition get (v : value) (k : string) : result value :=
  match v with
  | None | Some JNull => Threw TypeError
  | Some o => Val (member o k)
  end.

(** [v[0]]: throws on null and undefined. *)
Definition get0 (v : value) : result value :=
  match v with
  | None | Some JNull => Threw TypeError
  | Some o => Val (index0 o)
  end.

(** [v?.k] and [v?.[0]]: undefined on null and undefined. *)
Definition optGet (v : value) (k : string) : value :=
  match v with
  | None | Some JNull => None
  | Some o => member o k
  end.

Definition optGet0 (v : value) : value :=
  match v with
  | None | Some JNull => None
  | Some o => index0 o
  end.

(** [a || b]: [b] is evaluated, and may throw, only when [a] is falsy. *)
Definition orM (a b : result value) : result value :=
  bind a (fun v => if truthy v then Val v else b).

(** *** [JSON.stringify] *)

Definition escape_char (c : ascii) : string :=
  let n := nat_of_ascii c in
  if (n =? 34)%nat then "\" ++ JsString.DQ
  else if (n =? 92)%nat then "\\"
  else if (n =? 8)%nat then "\b"
  else if (n =? 12)%nat then "\f"
  else if (n =? 10)%nat then "\n"
  else if (n =? 13)%nat then "\r"
  else if (n =? 9)%nat then "\t"
  else if (n <? 32)%nat then
    "\u00" ++ String (JsString.hex_digit false (n / 16))
                     (String (JsString.hex_digit false (n mod 16)) "")
  else String c "".

Fixpoint escape (s : string) : string :=
  match s with
  | EmptyString => EmptyString
  | String c r => escape_char c ++ escape r
  end.

Definition quote (s : string) : string := JsString.DQ ++ escape s ++ JsString.DQ.

Fixpoint stringify (j : json) : string :=
  match j with
  | JNull => "null"
  | JBool true => "true"
  | JBool false => "false"
  | JNum n => JsString.ofZ n
  | JStr s => quote s
  | JArr items => "[" ++ String.concat "," (map stringify items) ++ "]"
  | JObj fields =>
      "{" ++ String.concat ","
               (map (fun kv => quote (fst kv) ++ ":" ++ stringify (snd kv)) fields)
          ++ "}"
  end.

End Js.

Import Js.

(** [!!s] for a string-or-absent field. *)
Definition present (s : option string) : bool :=
  match s with
  | Some t => negb (t =? "")
  | None => false
  end.

(** [s || d] for a string-or-absent field and a string default. *)
Definition orElse (s : option string) (d : string) : string :=
  match s with
  | Some t => if t =? "" then d else t
  | None => d
  end.

(** [s === lit] for a string-or-absent field. *)
Definition equals (s : option string) (lit : string) : bool :=
  match s with
  | Some t => t =? lit
  | None => false
  end.

(** ** The network *)

Module Http.

(** A number written into a request body: a literal default or the result
    of [parseFloat]/[parseInt] on the text of a request field. *)
Inductive NumExpr : Type :=
| NumLit (text : string)
| ParseFloat (arg : string)
| ParseInt (arg : string).

Inductive BodyValue : Type :=
| BText (s : string)
| BNumber (n : NumExpr)
| BMessages (content : string).   (* [{ role: 'user', content }] *)

(** The object handed to [JSON.stringify] for the request body, fields in
    source order. *)
Definition RequestBody := list (string * BodyValue).

Record FetchInit : Type := {
  method : string;
  headers : list (string * string);
  body : option RequestBody
}.

(** One call [fetch(url, init)]; [init] is absent for [fetch(url)]. *)
Record FetchCall : Type := {
  url : string;
  init : option FetchInit
}.

(** What a resolved [fetch] gives: the status, the text of the body
    ([response.text()]) and its parse ([response.json()], which throws when
    the body is not JSON). *)
Record Response : Type := {
  status : Z;
  bodyText : string;
  bodyJson : option json
}.

(** [response.ok] *)
Definition ok (r : Response) : bool := ((200 <=? status r) && (status r <=? 299))%Z.

Inductive FetchOutcome : Type :=
| Rejected
| Resolved (r : Response).

End Http.

(** ** The session store *)

Module Store.

Inductive Role : Type := user | assistant.

Definition roleName (r : Role) : string :=
  match r with
  | user => "user"
  | assistant => "assistant"
  end.

(** A row of the [chatMemory] table.  The table is kept in insertion
    order, which is the order of [createdAt]. *)
Record Row : Type := {
  sessionId : string;
  role : Role;
  content : string
}.

End Store.

(** ** The world and its environment *)

Record ChatMemory : Type := { sessionId : string }.

Record World : Type := {
  table : list Store.Row;             (* rows of db.chatMemory *)
  currentMemory : option ChatMemory;  (* let currentMemory: ChatMemory | null *)
  fetched : list Http.FetchCall;      (* fetch calls made so far *)
  dbOps : nat;                        (* storage operations made so far *)
  minted : nat                        (* session ids generated so far *)
}.

Record Env : Type := {
  net : nat -> Http.FetchCall -> Http.FetchOutcome; (* reply to the k-th fetch *)
  dbUp : nat -> bool;          (* does the k-th storage operation succeed *)
  now : nat -> Z;              (* Date.now() at the k-th generated id *)
  random36 : nat -> string;    (* Math.random().toString(36).substr(2, 9) *)
  OPENAI_API_KEY : option string  (* process.env.OPENAI_API_KEY *)
}.

Definition withTable (w : World) (t : list Store.Row) : World :=
  {| table := t; currentMemory := currentMemory w; fetched := fetched w;
     dbOps := dbOps w; minted := minted w |}.

Definition withCurrent (w : World) (m : ChatMemory) : World :=
  {| table := table w; currentMemory := Some m; fetched := fetched w;
     dbOps := dbOps w; minted := minted w |}.

Definition logFetch (w : World) (c : Http.FetchCall) : World :=
  {| table := table w; currentMemory := currentMemory w; fetched := fetched w ++ [c];
     dbOps := dbOps w; minted := minted w |}.

Definition tickDb (w : World) : World :=
  {| table := table w; currentMemory := currentMemory w; fetched := fetched w;
     dbOps := S (dbOps w); minted := minted w |}.

Definition tickMint (w : World) : World :=
  {| table := table w; currentMemory := currentMemory w; fetched := fetched w;
     dbOps := dbOps w; minted := S (minted w) |}.

(** ** [db.chatMemory] *)

Module Db.

(** Modelled from the spec: [lib/db] and the schema of the [chatMemory]
    table are not part of the sources.  The store is an append, query and
    delete-by-key interface over turns [{ session_id, role, content: text }]
    read back in insertion order; an operation fails when storage is
    unavailable, and [create] also fails for a content that is not text. *)
Definition create (env : Env) (sid : string) (r : Store.Role) (c : value) (w : World)
  : result unit * World :=
  let w' := tickDb w in
  if dbUp env (dbOps w) then
    match c with
    | Some (JStr s) =>
        (Val tt, withTable w' (table w ++ [{| Store.sessionId := sid; Store.role := r;
                                              Store.content := s |}]))
    | _ => (Threw StorageError, w')
    end
  else (Threw StorageError, w').

Definition ofSession (sid : string) (r : Store.Row) : bool := Store.sessionId r =? sid.

(** Modelled from the spec: [findMany] with [where: { sessionId }],
    [orderBy: { createdAt: 'asc' }] and an optional [take: limit] returns
    the session's rows oldest first, at most [limit] of them. *)
Definition findMany (env : Env) (sid : string) (take : option nat) (w : World)
  : result (list Store.Row) * World :=
  let w' := tickDb w in
  if dbUp env (dbOps w) then
    let found := filter (ofSession sid) (table w) in
    (Val (match take with Some n => firstn n found | None => found end), w')
  else (Threw StorageError, w').

(** Modelled from the spec: [deleteMany] with [where: { sessionId }]
    deletes all rows of the session. *)
Definition deleteMany (env : Env) (sid : string) (w : World) : result unit * World :=
  let w' := tickDb w in
  if dbUp env (dbOps w) then
    (Val tt, withTable w' (filter (fun r => negb (ofSession sid r)) (table w)))
  else (Threw StorageError, w').

End Db.

(** ** [src/lib/memory.ts] *)

Record ChatMessage : Type := {
  role : Store.Role;
  content : string
}.

Module Memory.

(** [generateSessionId]: [session_${Date.now()}_${random suffix}]. *)
Definition generateSessionId (env : Env) (w : World) : string * World :=
  ("session_" ++ JsString.ofZ (now env (minted w)) ++ "_" ++ random36 env (minted w),
   tickMint w).

(** [new ChatMemory(sessionId)]: [this.sessionId = sessionId || this.generateSessionId()]. *)
Definition new (env : Env) (sid : option string) (w : World) : ChatMemory * World :=
  let generated :=
    let (s, w') := generateSessionId env w in ({| sessionId := s |}, w') in
  match sid with
  | Some s => if s =? "" then generated else ({| sessionId := s |}, w)
  | None => generated
  end.

Definition getSessionId (m : ChatMemory) : string := sessionId m.

(** [saveMessage]: a failure of [create] is logged and swallowed. *)
Definition saveMessage (env : Env) (m : ChatMemory) (r : Store.Role) (c : value) (w : World)
  : World :=
  snd (Db.create env (sessionId m) r c w).

Definition toMessage (r : Store.Row) : ChatMessage :=
  {| role := Store.role r; content := Store.content r |}.

(** [getMemory(limit)]: a failure of [findMany] gives the empty list. *)
Definition getMemory (env : Env) (m : ChatMemory) (limit : nat) (w : World)
  : list ChatMessage * World :=
  match Db.findMany env (sessionId m) (Some limit) w with
  | (Val memories, w') => (map toMessage memories, w')
  | (Threw _, w') => ([], w')
  end.

Definition getFullMemory (env : Env) (m : ChatMemory) (w : World)
  : list ChatMessage * World :=
  match Db.findMany env (sessionId m) None w with
  | (Val memories, w') => (map toMessage memories, w')
  | (Threw _, w') => ([], w')
  end.

Definition clearMemory (env : Env) (m : ChatMemory) (w : World) : World :=
  snd (Db.deleteMany env (sessionId m) w).

(** [formatMemoryForPrompt] *)
Definition formatMemoryForPrompt (memory : list ChatMessage) : string :=
  if (List.length memory =? 0)%nat then ""
  else
    let memoryText :=
      String.concat JsString.LF
        (map (fun msg => JsString.toUpperCase (Store.roleName (role msg)) ++ ": " ++ content msg)
             memory) in
    "[Previous Conversation Context]" ++ JsString.LF ++ memoryText ++ JsString.LF
      ++ "[End of Context]" ++ JsString.LF ++ JsString.LF.

(** [getChatMemory(sessionId)]: the singleton is replaced when there is
    none yet, or when a session id is given that differs from its own. *)
Definition getChatMemory (env : Env) (sid : option string) (w : World) : ChatMemory * World :=
  let fresh :=
    let (m, w') := new env sid w in (m, withCurrent w' m) in
  match currentMemory w with
  | None => fresh
  | Some cur =>
      let differs :=
        match sid with
        | Some s => negb (s =? "") && negb (getSessionId cur =? s)
        | None => false
        end in
      if differs then fresh else (cur, w)
  end.

End Memory.

(** ** [src/app/api/local/route.ts]: response extraction of [generateText] *)

Module Local.

(** The second [switch (format)] of [generateText], applied to the parsed
    payload [data]; [responseText] starts as the empty string and is left
    so by a format without a case. *)
Definition extractResponseText (format : string) (data : json) : result value :=
  let d := Some data in
  if format =? "openai" then
    orM (orM (bind (get d "choices") (fun choices =>
              Val (optGet (optGet (optGet0 choices) "message") "content")))
             (get d "response"))
        (Val (Some (JStr "")))
  else if format =? "ollama" then
    orM (orM (get d "response") (get d "text")) (Val (Some (JStr "")))
  else if format =? "custom" then
    orM (orM (orM (get d "response") (get d "text")) (get d "content"))
        (Val (Some (JStr (stringify data))))
  else Val (Some (JStr "")).

End Local.

(** ** [src/app/api/pollinations/text/route.ts] *)

Module Req.

Record File : Type := {
  name : string;
  type : string;
  content : string
}.

(** An entry of [customApis] or [localModels], or [selectedApiConfig]. *)
Record ApiConfig : Type := {
  id : string;
  endpoint : option string;
  apiKey : option string
}.

(** The destructured request body.  A scalar field holds the text of its
    value ([String(v)]) when it is truthy. *)
Record t : Type := {
  prompt : option string;
  model : option string;
  seed : option string;
  temperature : option string;
  maxTokens : option string;
  files : option (list File);
  sessionId : option string;
  selectedApi : option string;
  selectedApiConfig : option ApiConfig;
  customApis : option (list ApiConfig);
  localModels : option (list ApiConfig)
}.

End Req.

Module Route.

(** The body of the success reply ([timestamp] left out). *)
Record Success : Type := {
  response : value;
  model : option string;
  filesProcessed : nat;
  sessionId : string;
  memoryContext : bool;
  selectedApi : option string
}.

(** What the handler answers: [NextResponse.json({ error }, { status: 400 })],
    [NextResponse.json({ error: error.message }, { status: 500 })] from the
    outer [catch], or the success body. *)
Inductive HttpResponse : Type :=
| BadRequest (error : string)
| ServerError (thrown : exn)
| Ok (payload : Success).

Definition statusOf (r : HttpResponse) : Z :=
  match r with
  | BadRequest _ => 400
  | ServerError _ => 500
  | Ok _ => 200
  end.

(** *** Computations of the handler: state, exceptions and early return *)

Inductive Outcome (A : Type) : Type :=
| Value (a : A)
| Throw (e : exn)
| Return (r : HttpResponse).
Arguments Value {A} a.
Arguments Throw {A} e.
Arguments Return {A} r.

Definition M (A : Type) : Type := World -> Outcome A * World.

Definition ret {A} (a : A) : M A := fun w => (Value a, w).

Definition bindM {A B} (m : M A) (k : A -> M B) : M B :=
  fun w =>
    match m w with
    | (Value a, w') => k a w'
    | (Throw e, w') => (Throw e, w')
    | (Return r, w') => (Return r, w')
    end.

Definition throw {A} (e : exn) : M A := fun w => (Throw e, w).

Definition returnNow {A} (r : HttpResponse) : M A := fun w => (Return r, w).

(** [try { m } catch (error) { handler }] *)
Definition tryCatch {A} (m : M A) (handler : exn -> M A) : M A :=
  fun w =>
    match m w with
    | (Throw e, w') => handler e w'
    | other => other
    end.

Definition lift {A} (r : result A) : M A :=
  match r with
  | Val a => ret a
  | Threw e => throw e
  end.

Declare Scope route_scope.
Delimit Scope route_scope with route.
Notation "x <- m ;; k" := (bindM m (fun x => k))
  (at level 61, m at next level, right associativity) : route_scope.
Notation "' p <- m ;; k" := (bindM m (fun x => match x with p => k end))
  (at level 61, p pattern, m at next level, right associativity) : route_scope.
Local Open Scope route_scope.

(** [await fetch(url, init)]: the call is logged, then the environment
    decides whether it resolves. *)
Definition fetch (env : Env) (call : Http.FetchCall) : M Http.Response :=
  fun w =>
    match net env (List.length (fetched w)) call with
    | Http.Resolved r => (Value r, logFetch w call)
    | Http.Rejected => (Throw FetchFailed, logFetch w call)
    end.

(** [await response.json()] *)
Definition json_ (r : Http.Response) : M json :=
  match Http.bodyJson r with
  | Some j => ret j
  | None => throw SyntaxError
  end.

Definition liftS {A} (f : World -> A * World) : M A :=
  fun w => let (a, w') := f w in (Value a, w').

Definition exec (f : World -> World) : M unit := fun w => (Value tt, f w).

(** *** Building the prompt (lines 88-133) *)

Definition withMemory (memoryContext prompt : string) : string :=
  if negb (memoryContext =? "") then
    memoryContext ++ "Current user message: " ++ prompt ++ JsString.LF ++ JsString.LF
      ++ "Please respond to the current message while being aware of the previous conversation context. If the user references something from earlier in the conversation, acknowledge it and continue naturally. Maintain consistency with previous responses."
  else prompt.

Definition isTextFile (file : Req.File) : bool :=
  JsString.startsWith (Req.type file) "text/"
  || JsString.endsWith (Req.name file) ".txt"
  || JsString.endsWith (Req.name file) ".md"
  || JsString.endsWith (Req.name file) ".json"
  || JsString.endsWith (Req.name file) ".js"
  || JsString.endsWith (Req.name file) ".ts"
  || JsString.endsWith (Req.name file) ".jsx"
  || JsString.endsWith (Req.name file) ".tsx"
  || JsString.endsWith (Req.name file) ".py"
  || JsString.endsWith (Req.name file) ".html"
  || JsString.endsWith (Req.name file) ".css"
  || JsString.endsWith (Req.name file) ".xml"
  || JsString.endsWith (Req.name file) ".csv".

Definition fileSection (file : Req.File) : string :=
  JsString.LF ++ "--- File: " ++ Req.name file ++ " (" ++ Req.type file ++ ") ---"
    ++ JsString.LF ++ Req.content file ++ JsString.LF
    ++ "--- End of " ++ Req.name file ++ " ---".

Definition withFiles (files : option (list Req.File)) (enhancedPrompt : string) : string :=
  match files with
  | Some files =>
      if (0 <? List.length files)%nat then
        let textFiles := filter isTextFile files in
        if (0 <? List.length textFiles)%nat then
          let fileContents :=
            String.concat (JsString.LF ++ JsString.LF) (map fileSection textFiles) in
          enhancedPrompt ++ JsString.LF ++ JsString.LF ++ "[Attached Files Content]"
            ++ JsString.LF ++ fileContents ++ JsString.LF ++ "[End of Files]"
            ++ JsString.LF ++ JsString.LF
            ++ "Please consider the content of these attached files when responding to the user's message."
        else enhancedPrompt
      else enhancedPrompt
  | None => enhancedPrompt
  end.

Definition withStructure (selectedApi : option string) (enhancedPrompt : string) : string :=
  if negb (equals selectedApi "pollinations") then
    enhancedPrompt ++ JsString.LF ++ JsString.LF
      ++ "Please format your response with proper structure:" ++ JsString.LF
      ++ "- Use code blocks with language specification (e.g., ```javascript, ```python)"
      ++ JsString.LF
      ++ "- Use numbered or bulleted lists for clarity" ++ JsString.LF
      ++ "- Use proper headings and formatting" ++ JsString.LF
      ++ "- Include JSON data in formatted code blocks" ++ JsString.LF
      ++ "- Make code snippets copyable and well-formatted"
  else enhancedPrompt.

Definition enhance (req : Req.t) (memoryContext prompt : string) : string :=
  withStructure (Req.selectedApi req)
    (withFiles (Req.files req) (withMemory memoryContext prompt)).

(** *** Request pieces shared by the branches *)

(** [temperature ? parseFloat(temperature) : 0.7] *)
Definition temperatureOf (req : Req.t) : Http.NumExpr :=
  if present (Req.temperature req) then Http.ParseFloat (orElse (Req.temperature req) "")
  else Http.NumLit "0.7".

(** [maxTokens ? parseInt(maxTokens) : 1000] *)
Definition maxTokensOf (req : Req.t) : Http.NumExpr :=
  if present (Req.maxTokens req) then Http.ParseInt (orElse (Req.maxTokens req) "")
  else Http.NumLit "1000".

(** [selectedApiConfig?.apiKey] *)
Definition configKey (req : Req.t) : option string :=
  match Req.selectedApiConfig req with
  | Some c => Req.apiKey c
  | None => None
  end.

Definition post (headers : list (string * string)) (body : Http.RequestBody) : Http.FetchInit :=
  {| Http.method := "POST"; Http.headers := headers; Http.body := Some body |}.

Definition pollinationsUrl (enhancedPrompt : string) : string :=
  "https://text.pollinations.ai/" ++ JsString.encodeURIComponent enhancedPrompt.

(** The state of [let response; let responseData;] after a branch. *)
Definition Reply : Type := option Http.Response * value.

(** *** Normalising a parsed payload *)

(** Lines 164 and 199:
    [data.choices[0]?.message?.content || 'No response from ...']. *)
Definition chatResponseData (data : json) (noResponse : string) : result value :=
  orM (bind (get (Some data) "choices") (fun choices =>
       bind (get0 choices) (fun first =>
       Val (optGet (optGet first "message") "content"))))
      (Val (Some (JStr noResponse))).

(** Line 234: [data.content?.[0]?.text || 'No response from Claude']. *)
Definition claudeResponseData (data : json) : result value :=
  orM (bind (get (Some data) "content") (fun content =>
       Val (optGet (optGet0 content) "text")))
      (Val (Some (JStr "No response from Claude"))).

(** Line 318: [data.choices?.[0]?.message?.content || data.content ||
    data.response || JSON.stringify(data)]. *)
Definition customResponseData (data : json) : result value :=
  orM (orM (orM (bind (get (Some data) "choices") (fun choices =>
                 Val (optGet (optGet (optGet0 choices) "message") "content")))
                (get (Some data) "content"))
           (get (Some data) "response"))
      (Val (Some (JStr (stringify data)))).

(** *** The branches of the dispatch (lines 139-338) *)

Definition openai (env : Env) (req : Req.t) (enhancedPrompt : string) : M Reply :=
  let openaiUrl := "https://api.openai.com/v1/chat/completions" in
  let apiKey := if present (configKey req) then configKey req else OPENAI_API_KEY env in
  if negb (present apiKey) then returnNow (BadRequest "OpenAI API key is required")
  else
    response <- fetch env
      {| Http.url := openaiUrl;
         Http.init := Some (post
           [("Content-Type", "application/json");
            ("Authorization", "Bearer " ++ orElse apiKey "")]
           [("model", Http.BText (orElse (Req.model req) "gpt-3.5-turbo"));
            ("messages", Http.BMessages enhancedPrompt);
            ("temperature", Http.BNumber (temperatureOf req));
            ("max_tokens", Http.BNumber (maxTokensOf req))]) |} ;;
    if Http.ok response then
      data <- json_ response ;;
      responseData <- lift (chatResponseData data "No response from OpenAI") ;;
      ret (Some response, responseData)
    else ret (Some response, None).

Definition mistral (env : Env) (req : Req.t) (enhancedPrompt : string) : M Reply :=
  let mistralUrl := "https://api.mistral.ai/v1/chat/completions" in
  let apiKey := configKey req in
  if negb (present apiKey) then returnNow (BadRequest "Mistral API key is required")
  else
    let model := Req.model req in
    let mistralModel :=
      if equals model "gpt-3.5-turbo" || equals model "gpt-4" || equals model "OpenAI"
      then "mistral-tiny"
      else if equals model "claude-3-sonnet" || equals model "claude-3-haiku"
      then "mistral-small"
      else orElse model "mistral-tiny" in
    response <- fetch env
      {| Http.url := mistralUrl;
         Http.init := Some (post
           [("Content-Type", "application/json");
            ("Authorization", "Bearer " ++ orElse apiKey "")]
           [("model", Http.BText mistralModel);
            ("messages", Http.BMessages enhancedPrompt);
            ("temperature", Http.BNumber (temperatureOf req));
            ("max_tokens", Http.BNumber (maxTokensOf req))]) |} ;;
    if Http.ok response then
      data <- json_ response ;;
      responseData <- lift (chatResponseData data "No response from Mistral") ;;
      ret (Some response, responseData)
    else ret (Some response, None).

Definition claude (env : Env) (req : Req.t) (enhancedPrompt : string) : M Reply :=
  let claudeUrl := "https://api.anthropic.com/v1/messages" in
  let apiKey := configKey req in
  if negb (present apiKey) then returnNow (BadRequest "Claude API key is required")
  else
    let model := Req.model req in
    let claudeModel :=
      if equals model "gpt-3.5-turbo" || equals model "gpt-4" || equals model "OpenAI"
      then "claude-3-haiku-20240307"
      else if equals model "mistral-tiny" || equals model "mistral-small"
      then "claude-3-sonnet-20240229"
      else orElse model "claude-3-haiku-20240307" in
    response <- fetch env
      {| Http.url := claudeUrl;
         Http.init := Some (post
           [("Content-Type", "application/json");
            ("x-api-key", orElse apiKey "");
            ("anthropic-version", "2023-06-01")]
           [("model", Http.BText claudeModel);
            ("max_tokens", Http.BNumber (maxTokensOf req));
            ("messages", Http.BMessages enhancedPrompt)]) |} ;;
    if Http.ok response then
      data <- json_ response ;;
      responseData <- lift (claudeResponseData data) ;;
      ret (Some response, responseData)
    else ret (Some response, None).

Definition pollinations (env : Env) (req : Req.t) (enhancedPrompt : string) : M Reply :=
  let apiUrl := pollinationsUrl enhancedPrompt in
  let model := Req.model req in
  let params :=
    ((if present model && negb (equals model "OpenAI") && negb (equals model "openai")
      then [("model", JsString.toLowerCase (orElse model ""))] else [])
     ++ (if present (Req.seed req) then [("seed", orElse (Req.seed req) "")] else [])
     ++ (if present (Req.temperature req)
         then [("temperature", orElse (Req.temperature req) "")] else [])
     ++ (if present (Req.maxTokens req)
         then [("max_tokens", orElse (Req.maxTokens req) "")] else []))%list in
  let query := JsString.searchParamsToString params in
  let url := if negb (query =? "") then apiUrl ++ "?" ++ query else apiUrl in
  response <- fetch env
    {| Http.url := url;
       Http.init := Some {| Http.method := "GET";
                            Http.headers := [("User-Agent", "AI-Chat-Studio/1.0")];
                            Http.body := None |} |} ;;
  if Http.ok response then ret (Some response, Some (JStr (Http.bodyText response)))
  else ret (Some response, None).

(** [fetch(apiUrl)] on Pollinations without parameters: the fallback used by
    the custom branch. *)
Definition fallback (env : Env) (enhancedPrompt : string) : M Reply :=
  let apiUrl := pollinationsUrl enhancedPrompt in
  response <- fetch env {| Http.url := apiUrl; Http.init := None |} ;;
  if Http.ok response then ret (Some response, Some (JStr (Http.bodyText response)))
  else ret (Some response, None).

(** [[...(customApis || []), ...(localModels || [])]] *)
Definition allApis (req : Req.t) : list Req.ApiConfig :=
  (match Req.customApis req with Some l => l | None => [] end
   ++ match Req.localModels req with Some l => l | None => [] end)%list.

(** [allApis.find(api => api.id === selectedApi) || selectedApiConfig] *)
Definition apiConfigOf (req : Req.t) : option Req.ApiConfig :=
  match find (fun api => equals (Req.selectedApi req) (Req.id api)) (allApis req) with
  | Some api => Some api
  | None => Req.selectedApiConfig req
  end.

Definition isMessagesFormat (endpoint : string) : bool :=
  JsString.includes endpoint "openai.com"
  || JsString.includes endpoint "anthropic.com"
  || JsString.includes endpoint "mistral.ai"
  || JsString.includes endpoint "/chat/completions"
  || JsString.includes endpoint "/v1/messages".

Definition custom (env : Env) (req : Req.t) (enhancedPrompt : string) : M Reply :=
  tryCatch
    (match apiConfigOf req with
     | Some apiConfig =>
         if present (Req.endpoint apiConfig) then
           let endpoint := orElse (Req.endpoint apiConfig) "" in
           let headers :=
             ([("Content-Type", "application/json")]
              ++ (if present (Req.apiKey apiConfig)
                  then [("Authorization",
                         ("Bearer " ++ orElse (Req.apiKey apiConfig) "")%string)]
                  else []))%list in
           let requestBody :=
             ([("model", Http.BText (orElse (Req.model req) "default"));
               ("temperature", Http.BNumber (temperatureOf req));
               ("max_tokens", Http.BNumber (maxTokensOf req))]
              ++ (if isMessagesFormat endpoint
                  then [("messages", Http.BMessages enhancedPrompt)]
                  else [("prompt", Http.BText enhancedPrompt)]))%list in
           response <- fetch env
             {| Http.url := endpoint; Http.init := Some (post headers requestBody) |} ;;
           if Http.ok response then
             data <- json_ response ;;
             responseData <- lift (customResponseData data) ;;
             ret (Some response, responseData)
           else ret (Some response, None)
         else fallback env enhancedPrompt
     | None => fallback env enhancedPrompt
     end)
    (fun error => fallback env enhancedPrompt).

(** The conditional chain on [selectedApi]. *)
Definition dispatch (env : Env) (req : Req.t) (enhancedPrompt : string) : M Reply :=
  let selectedApi := Req.selectedApi req in
  if equals selectedApi "openai" then openai env req enhancedPrompt
  else if equals selectedApi "mistral" then mistral env req enhancedPrompt
  else if equals selectedApi "claude" then claude env req enhancedPrompt
  else if equals selectedApi "pollinations" || negb (present selectedApi)
  then pollinations env req enhancedPrompt
  else custom env req enhancedPrompt.

(** *** The handler *)

(** Lines 78-86: the singleton for the session, the user turn saved, the
    first ten turns read back and formatted. *)
Definition recall (env : Env) (req : Req.t) (prompt : string)
  : M (ChatMemory * list ChatMessage * string) :=
  chatMemory <- liftS (Memory.getChatMemory env (Req.sessionId req)) ;;
  _ <- exec (Memory.saveMessage env chatMemory Store.user (Some (JStr prompt))) ;;
  memory <- liftS (Memory.getMemory env chatMemory 10) ;;
  let memoryContext := Memory.formatMemoryForPrompt memory in
  ret (chatMemory, memory, memoryContext).

(** Lines 340-344 *)
Definition checkReply (reply : Reply) : M unit :=
  match fst reply with
  | Some response =>
      if Http.ok response then ret tt
      else
        let errorText := Http.bodyText response in
        throw (ApiError ("API error: "
                         ++ (if (Http.status response =? 0)%Z then "Network"
                             else JsString.ofZ (Http.status response))
                         ++ " - " ++ errorText))
  | None => throw (ApiError "API error: Network - No response")
  end.

(** The body of the [try] block of [POST], for the parsed request body. *)
Definition handle (env : Env) (req : Req.t) : M HttpResponse :=
  match Req.prompt req with
  | None => returnNow (BadRequest "Prompt is required")
  | Some prompt =>
      if prompt =? "" then returnNow (BadRequest "Prompt is required")
      else
        ' (chatMemory, memory, memoryContext) <- recall env req prompt ;;
        let enhancedPrompt := enhance req memoryContext prompt in
        reply <- dispatch env req enhancedPrompt ;;
        _ <- checkReply reply ;;
        let responseData := snd reply in
        _ <- exec (Memory.saveMessage env chatMemory Store.assistant responseData) ;;
        ret (Ok {| response := responseData;
                   model := Req.model req;
                   filesProcessed :=
                     match Req.files req with Some files => List.length files | None => 0%nat end;
                   sessionId := Memory.getSessionId chatMemory;
                   memoryContext := (0 <? List.length memory)%nat;
                   selectedApi := Req.selectedApi req |})
  end.

(** [POST]: a value thrown inside the [try] block is answered with status
    500 and the message of the error. *)
Definition POST (env : Env) (req : Req.t) (w : World) : HttpResponse * World :=
  match handle env req w with
  | (Value r, w') => (r, w')
  | (Return r, w') => (r, w')
  | (Throw e, w') => (ServerError e, w')
  end.

End Route.

(** ** Vocabulary of the properties *)

Module Facts.

(** A computation of the handler that touches nothing but the network log,
    and whose early returns are answers of status 400. *)
Definition tame {A} (m : Route.M A) : Prop :=
  forall w : World,
    table (snd (m w)) = table w
    /\ dbOps (snd (m w)) = dbOps w
    /\ currentMemory (snd (m w)) = currentMemory w
    /\ minted (snd (m w)) = minted w
    /\ forall r, fst (m w) = Route.Return r -> Route.statusOf r = 400%Z.

(** The rows that the [k]-th storage operation adds when it is
    [saveMessage(role, content)] on session [sid]. *)
Definition appended (env : Env) (k : nat) (sid : string) (r : Store.Role) (c : value)
  : list Store.Row :=
  if dbUp env k then
    match c with
    | Some (JStr text) =>
        [{| Store.sessionId := sid; Store.role := r; Store.content := text |}]
    | _ => []
    end
  else [].

(** Safe navigation [data.choices?.[0]?.message?.content] on a payload that
    is not null. *)
Definition choiceContent (data : json) : value :=
  optGet (optGet (optGet0 (member data "choices")) "message") "content".

(** The first truthy candidate, else the payload serialised. *)
Fixpoint firstTruthy (candidates : list value) (data : json) : value :=
  match candidates with
  | [] => Some (JStr (stringify data))
  | c :: rest => if truthy c then c else firstTruthy rest data
  end.

(** The extraction order that the specification gives for the raw-prompt
    and custom-json dialects: [choices[0].message.content], else [content],
    else [response], else the serialised payload. *)
Definition specCustomText (data : json) : value :=
  firstTruthy [choiceContent data; member data "content"; member data "response"] data.

(** The context that the handler injects for a request with prompt
    [prompt] received in world [w], and the prompt it then sends. *)
Definition injectedContext (env : Env) (req : Req.t) (prompt : string) (w : World) : string :=
  match fst (Route.recall env req prompt w) with
  | Route.Value (_, _, memoryContext) => memoryContext
  | _ => ""
  end.

Definition promptSent (env : Env) (req : Req.t) (prompt : string) (w : World) : string :=
  Route.enhance req (injectedContext env req prompt w) prompt.

(** [fetch(apiUrl)] on Pollinations for the prompt sent. *)
Definition fallbackCall (env : Env) (req : Req.t) (prompt : string) (w : World)
  : Http.FetchCall :=
  {| Http.url := Route.pollinationsUrl (promptSent env req prompt w); Http.init := None |}.

End Facts.

(** ** Scenarios used by the examples *)

Module Scenario.

Import Route.

Definition emptyWorld : World :=
  {| table := []; currentMemory := None; fetched := []; dbOps := 0; minted := 0 |}.

Definition textReply (text : string) : Http.FetchOutcome :=
  Http.Resolved {| Http.status := 200; Http.bodyText := text; Http.bodyJson := None |}.

Definition jsonReply (text : string) (data : json) : Http.FetchOutcome :=
  Http.Resolved {| Http.status := 200; Http.bodyText := text; Http.bodyJson := Some data |}.

Definition failedReply (code : Z) (text : string) : Http.FetchOutcome :=
  Http.Resolved {| Http.status := code; Http.bodyText := text; Http.bodyJson := None |}.

(** An environment with working storage and no process-level key, whose
    network gives the same outcome to every call. *)
Definition always (outcome : Http.FetchOutcome) : Env :=
  {| net := fun _ _ => outcome;
     dbUp := fun _ => true;
     now := fun _ => 1700000000000%Z;
     random36 := fun _ => "k3j9x0qpz";
     OPENAI_API_KEY := None |}.

(** A request with nothing but a prompt, a session and a provider id. *)
Definition ask (sid : option string) (api : option string) (prompt : string) : Req.t :=
  {| Req.prompt := Some prompt; Req.model := None; Req.seed := None;
     Req.temperature := None; Req.maxTokens := None; Req.files := None;
     Req.sessionId := sid; Req.selectedApi := api; Req.selectedApiConfig := None;
     Req.customApis := None; Req.localModels := None |}.

(** The same with a [selectedApiConfig]. *)
Definition askWith (config : Req.ApiConfig) (sid : option string) (api : option string)
    (prompt : string) : Req.t :=
  {| Req.prompt := Some prompt; Req.model := None; Req.seed := None;
     Req.temperature := None; Req.maxTokens := None; Req.files := None;
     Req.sessionId := sid; Req.selectedApi := api; Req.selectedApiConfig := Some config;
     Req.customApis := None; Req.localModels := None |}.

Definition turn (sid : string) (r : Store.Role) (text : string) : Store.Row :=
  {| Store.sessionId := sid; Store.role := r; Store.content := text |}.

(** A key for the built-in providers. *)
Definition withKey (api : string) : Req.ApiConfig :=
  {| Req.id := api; Req.endpoint := None; Req.apiKey := Some "sk-test" |}.

(** A caller-supplied endpoint. *)
Definition homeApi : Req.ApiConfig :=
  {| Req.id := "home"; Req.endpoint := Some "http://localhost:8080/generate";
     Req.apiKey := None |}.

End Scenario.

(** ** [src/app/api/pollinations/text/route.ts]: the [GET] handler *)

Module TextGet.

(** The search parameters read by the handler: [searchParams.get] gives a
    string or null. *)
Record Query : Type := {
  prompt : option string;
  model : option string;
  seed : option string;
  temperature : option string;
  max_tokens : option string
}.

(** What the handler answers: status 400 with an error text, status 500
    with the message of the error thrown, or [{ response, model }]
    ([timestamp] left out). *)
Inductive Answer : Type :=
| BadRequest (error : string)
| ServerError (thrown : exn)
| Ok (response : string) (model : string).

Definition statusOf (a : Answer) : Z :=
  match a with
  | BadRequest _ => 400
  | ServerError _ => 500
  | Ok _ _ => 200
  end.

(** The URL fetched for a query with a prompt (lines 17-35). *)
Definition urlOf (q : Query) (prompt : string) : string :=
  let model := orElse (model q) "openai" in
  let apiUrl := "https://text.pollinations.ai/" ++ JsString.encodeURIComponent prompt in
  let params :=
    ((if negb (model =? "") && negb (model =? "OpenAI") && negb (model =? "openai")
      then [("model", JsString.toLowerCase model)] else [])
     ++ (if present (seed q) then [("seed", orElse (seed q) "")] else [])
     ++ (if present (temperature q)
         then [("temperature", orElse (temperature q) "")] else [])
     ++ (if present (max_tokens q)
         then [("max_tokens", orElse (max_tokens q) "")] else []))%list in
  let query := JsString.searchParamsToString params in
  if negb (query =? "") then apiUrl ++ "?" ++ query else apiUrl.

Definition callOf (q : Query) (prompt : string) : Http.FetchCall :=
  {| Http.url := urlOf q prompt;
     Http.init := Some {| Http.method := "GET";
                          Http.headers := [("User-Agent", "AI-Chat-Studio/1.0")];
                          Http.body := None |} |}.

(** [GET]: the prompt is checked outside the [try] block; inside it a
    rejected fetch and the error thrown for a failure status are both
    answered 500 by the [catch]. *)
Definition GET (env : Env) (q : Query) (w : World) : Answer * World :=
  match prompt q with
  | None => (BadRequest "Prompt is required", w)
  | Some prompt =>
      if prompt =? "" then (BadRequest "Prompt is required", w)
      else
        let model := orElse (model q) "openai" in
        let call := callOf q prompt in
        match net env (List.length (fetched w)) call with
        | Http.Resolved response =>
            if negb (Http.ok response) then
              let errorText := Http.bodyText response in
              (ServerError (ApiError ("Pollinations API error: "
                                      ++ JsString.ofZ (Http.status response)
                                      ++ " - " ++ errorText)),
               logFetch w call)
            else (Ok (Http.bodyText response) model, logFetch w call)
        | Http.Rejected => (ServerError FetchFailed, logFetch w call)
        end
  end.

End TextGet.

(** ** [src/app/api/memory/route.ts] *)

Module MemoryRoute.

(** [message] of the [POST] body. *)
Record Message : Type := {
  role : Store.Role;
  content : value
}.

(** The destructured [POST] body. *)
Record Body : Type := {
  action : option string;
  sessionId : option string;
  message : option Message
}.

(** What the handlers answer.  Nothing inside their [try] blocks throws in
    this model (the memory operations swallow their failures), so the
    status 500 of the [catch] does not occur. *)
Inductive Answer : Type :=
| Cleared (sessionId : string)     (* { success, message: 'Memory cleared successfully', sessionId } *)
| Saved (sessionId : string)       (* { success, message: 'Message saved to memory', sessionId } *)
| History (memory : list ChatMessage) (sessionId : string) (messageCount : nat)
| Invalid.                         (* status 400, 'Invalid action or missing parameters' *)

(** [sessionId || undefined] *)
Definition orUndefined (sid : option string) : option string :=
  if present sid then sid else None.

(** [GET] with the search parameters [sessionId] and [action]. *)
Definition GET (env : Env) (sessionId action : option string) (w : World)
  : Answer * World :=
  let (chatMemory, w1) := Memory.getChatMemory env (orUndefined sessionId) w in
  if equals action "clear" then
    let w2 := Memory.clearMemory env chatMemory w1 in
    (Cleared (Memory.getSessionId chatMemory), w2)
  else
    let (memory, w2) := Memory.getFullMemory env chatMemory w1 in
    (History memory (Memory.getSessionId chatMemory) (List.length memory), w2).

(** [POST] *)
Definition POST (env : Env) (body : Body) (w : World) : Answer * World :=
  let (chatMemory, w1) := Memory.getChatMemory env (orUndefined (sessionId body)) w in
  match (if equals (action body) "save" then message body else None) with
  | Some message =>
      let w2 := Memory.saveMessage env chatMemory (role message) (content message) w1 in
      (Saved (Memory.getSessionId chatMemory), w2)
  | None =>
      if equals (action body) "clear" then
        let w2 := Memory.clearMemory env chatMemory w1 in
        (Cleared (Memory.getSessionId chatMemory), w2)
      else (Invalid, w1)
  end.

End MemoryRoute.

(** ** More vocabulary of the properties *)

Module Bounds.

(** A computation of the handler that only appends to the log of fetch
    calls, at most [n] of them. *)
Definition fetchesAtMost {A} (n : nat) (m : Route.M A) : Prop :=
  forall w : World,
    exists calls : list Http.FetchCall,
      fetched (snd (m w)) = (fetched w ++ calls)%list
      /\ (List.length calls <= n)%nat.

(** The characters that [encodeURIComponent] can put out: the ones it keeps
    and those of an escape. *)
Definition uriChar (c : ascii) : bool :=
  JsString.is_alnum c || JsString.mem_char c "-_.!~*'()%".

(** The characters that the form serializer can put out. *)
Definition formChar (c : ascii) : bool :=
  JsString.is_alnum c || JsString.mem_char c "*-._+%".

(** A fetch outcome that the custom branch cannot use and recovers from:
    the fetch is rejected, or it has a success status with a body that is
    not JSON or is [null]. *)
Definition unusable (o : Http.FetchOutcome) : Prop :=
  match o with
  | Http.Rejected => True
  | Http.Resolved r =>
      Http.ok r = true /\ (Http.bodyJson r = None \/ Http.bodyJson r = Some JNull)
  end.

End Bounds.

(** * Properties *)

(** ** The memory manager *)

Lemma append_assoc (a b c : string) : (a ++ b) ++ c = a ++ (b ++ c).
Proof.
  induction a as [|x a IH]; simpl; [reflexivity|]. now rewrite IH.
Qed.

Section MemoryFacts.

Variable env : Env.

Lemma getChatMemory_given (s : string) (w : World) :
  s <> "" -> Memory.getSessionId (fst (Memory.getChatMemory env (Some s) w)) = s.
Proof.
  intros Hs. apply String.eqb_neq in Hs.
  unfold Memory.getChatMemory, Memory.new.
  destruct (currentMemory w) as [cur|]; rewrite Hs; simpl.
  - destruct (Memory.getSessionId cur =? s) eqn:E; simpl; [|reflexivity].
    now apply String.eqb_eq in E.
  - reflexivity.
Qed.

Lemma getChatMemory_current (sid : option string) (w : World) :
  currentMemory (snd (Memory.getChatMemory env sid w))
  = Some (fst (Memory.getChatMemory env sid w)).
Proof.
  unfold Memory.getChatMemory, Memory.new, Memory.generateSessionId.
  destruct (currentMemory w) as [cur|] eqn:Hc.
  - destruct sid as [s|]; simpl; [|exact Hc].
    destruct (s =? ""); simpl; [exact Hc|].
    destruct (Memory.getSessionId cur =? s); simpl; [exact Hc|reflexivity].
  - destruct sid as [s|]; simpl; [destruct (s =? "")|]; reflexivity.
Qed.

(** Only the singleton and the id counter are touched by [getChatMemory]. *)
Lemma getChatMemory_frame (sid : option string) (w : World) :
  let w' := snd (Memory.getChatMemory env sid w) in
  table w' = table w /\ fetched w' = fetched w /\ dbOps w' = dbOps w.
Proof.
  unfold Memory.getChatMemory, Memory.new, Memory.generateSessionId.
  destruct (currentMemory w) as [cur|].
  - destruct sid as [s|]; simpl; [|auto].
    destruct (s =? ""); simpl; [auto|].
    destruct (Memory.getSessionId cur =? s); simpl; auto.
  - destruct sid as [s|]; simpl; [destruct (s =? "")|]; simpl; auto.
Qed.

End MemoryFacts.

(** C9. [formatMemoryForPrompt] gives the empty string for no turns, and
    for at least one turn the lines [USER: content] / [ASSISTANT: content],
    one per turn in order and joined by newlines, between the header
    [[Previous Conversation Context]] and the footer [[End of Context]]
    followed by a blank line. *)
Theorem formatMemoryForPrompt_shape :
  Memory.formatMemoryForPrompt [] = ""
  /\ forall (m : ChatMessage) (rest : list ChatMessage),
       Memory.formatMemoryForPrompt (m :: rest)
       = "[Previous Conversation Context]" ++ JsString.LF
         ++ String.concat JsString.LF
              (map (fun t => match role t with
                             | Store.user => "USER"
                             | Store.assistant => "ASSISTANT"
                             end ++ ": " ++ content t) (m :: rest))
         ++ JsString.LF ++ "[End of Context]" ++ JsString.LF ++ JsString.LF.
Proof.
  split; [reflexivity|].
  intros m rest. unfold Memory.formatMemoryForPrompt.
  change (List.length (m :: rest) =? 0)%nat with false. cbv iota.
  rewrite (map_ext
             (fun msg => JsString.toUpperCase (Store.roleName (role msg)) ++ ": " ++ content msg)
             (fun t => match role t with
                       | Store.user => "USER"
                       | Store.assistant => "ASSISTANT"
                       end ++ ": " ++ content t)).
  - reflexivity.
  - intros [[|] c]; reflexivity.
Qed.

(** C5. [getMemory(limit)] returns the first [limit] turns of what
    [getFullMemory] returns for the same session in the same state: a
    prefix of the full history, of length the smaller of [limit] and the
    length of the history; and the full history is the session's rows in
    insertion order, oldest first (empty when storage fails). *)
Theorem getMemory_earliest_turns :
  forall (env : Env) (m : ChatMemory) (limit : nat) (w : World),
    let recent := fst (Memory.getMemory env m limit w) in
    let all := fst (Memory.getFullMemory env m w) in
    recent = firstn limit all
    /\ all = (recent ++ skipn limit all)%list
    /\ List.length recent = Nat.min limit (List.length all)
    /\ all = (if dbUp env (dbOps w)
              then map Memory.toMessage
                     (filter (Db.ofSession (Memory.getSessionId m)) (table w))
              else []).
Proof.
  intros env m limit w recent all.
  assert (H : recent = firstn limit all).
  { subst recent all. unfold Memory.getMemory, Memory.getFullMemory, Db.findMany.
    destruct (dbUp env (dbOps w)); simpl.
    - symmetry. apply firstn_map.
    - now rewrite firstn_nil. }
  split; [exact H|]. rewrite H. repeat split.
  - symmetry. apply firstn_skipn.
  - apply length_firstn.
  - subst all. unfold Memory.getFullMemory, Db.findMany, Memory.getSessionId.
    now destruct (dbUp env (dbOps w)).
Qed.

(** C10. The accessor keeps one current instance: asked for a non-empty
    session id it answers an instance of that id; whatever it answers
    becomes the singleton; and once there is a singleton, a call without a
    session id answers that instance with its own id and changes nothing,
    so no session id is minted. *)
Theorem getChatMemory_singleton :
  forall (env : Env) (w : World),
    (forall s : string,
        s <> "" -> Memory.getSessionId (fst (Memory.getChatMemory env (Some s) w)) = s)
    /\ (forall sid : option string,
          currentMemory (snd (Memory.getChatMemory env sid w))
          = Some (fst (Memory.getChatMemory env sid w)))
    /\ (forall cur : ChatMemory,
          currentMemory w = Some cur -> Memory.getChatMemory env None w = (cur, w)).
Proof.
  intros env w. split; [|split].
  - intros s Hs. now apply getChatMemory_given.
  - intros sid. apply getChatMemory_current.
  - intros cur Hcur. unfold Memory.getChatMemory. now rewrite Hcur.
Qed.

Lemma getChatMemory_singleton_witness :
  Memory.getSessionId
    (fst (Memory.getChatMemory (Scenario.always Http.Rejected) (Some "s1")
            Scenario.emptyWorld)) = "s1"
  /\ Memory.getChatMemory (Scenario.always Http.Rejected) None
       (snd (Memory.getChatMemory (Scenario.always Http.Rejected) (Some "s1")
               Scenario.emptyWorld))
     = Memory.getChatMemory (Scenario.always Http.Rejected) (Some "s1") Scenario.emptyWorld.
Proof.
  split.
  - apply (proj1 (getChatMemory_singleton (Scenario.always Http.Rejected)
                    Scenario.emptyWorld) "s1").
    discriminate.
  - apply (proj2 (proj2 (getChatMemory_singleton (Scenario.always Http.Rejected)
                           (snd (Memory.getChatMemory (Scenario.always Http.Rejected)
                                   (Some "s1") Scenario.emptyWorld))))
             {| sessionId := "s1" |}).
    reflexivity.
Defined.

(** With three turns stored and a limit of two, [getMemory] answers the two
    oldest turns and leaves out the newest. *)
Example getMemory_drops_newest :
  fst (Memory.getMemory (Scenario.always Http.Rejected) {| sessionId := "s1" |} 2
         {| table := [Scenario.turn "s1" Store.user "one";
                      Scenario.turn "s1" Store.assistant "two";
                      Scenario.turn "s1" Store.user "three"];
            currentMemory := None; fetched := []; dbOps := 0; minted := 0 |})
  = [{| role := Store.user; content := "one" |};
     {| role := Store.assistant; content := "two" |}].
Proof. reflexivity. Qed.

(** ** The handler: frame and unfolding lemmas *)

Section RouteFacts.

Import Route Facts.
Local Open Scope route_scope.

Variable env : Env.

Lemma saveMessage_effect (m : ChatMemory) (r : Store.Role) (c : value) (w : World) :
  let w' := Memory.saveMessage env m r c w in
  table w' = (table w ++ appended env (dbOps w) (Memory.getSessionId m) r c)%list
  /\ dbOps w' = S (dbOps w) /\ fetched w' = fetched w
  /\ currentMemory w' = currentMemory w.
Proof.
  unfold Memory.saveMessage, Db.create, appended, Memory.getSessionId.
  destruct (dbUp env (dbOps w)); simpl.
  - destruct c as [[| | |s| |]|]; simpl; rewrite ?app_nil_r; auto.
  - rewrite app_nil_r; auto.
Qed.

Lemma getMemory_effect (m : ChatMemory) (limit : nat) (w : World) :
  let w' := snd (Memory.getMemory env m limit w) in
  table w' = table w /\ dbOps w' = S (dbOps w) /\ fetched w' = fetched w
  /\ currentMemory w' = currentMemory w.
Proof.
  unfold Memory.getMemory, Db.findMany.
  destruct (dbUp env (dbOps w)); simpl; auto.
Qed.

Lemma getMemory_up (m : ChatMemory) (limit : nat) (w : World) :
  dbUp env (dbOps w) = true ->
  fst (Memory.getMemory env m limit w)
  = map Memory.toMessage (firstn limit (filter (Db.ofSession (Memory.getSessionId m)) (table w))).
Proof.
  intros H. unfold Memory.getMemory, Db.findMany, Memory.getSessionId. now rewrite H.
Qed.

(** *** Computations that only use the network *)

Lemma tame_ret {A} (a : A) : tame (ret a).
Proof. intros w; simpl; repeat split; discriminate. Qed.

Lemma tame_throw {A} (e : exn) : tame (@throw A e).
Proof. intros w; simpl; repeat split; discriminate. Qed.

Lemma tame_returnNow {A} (msg : string) : tame (@returnNow A (BadRequest msg)).
Proof.
  intros w; simpl; repeat split. intros r H; now inversion H.
Qed.

Lemma tame_bind {A B} (m : M A) (k : A -> M B) :
  tame m -> (forall a, tame (k a)) -> tame (bindM m k).
Proof.
  intros Hm Hk w. unfold bindM.
  destruct (Hm w) as (Ht & Hd & Hc & Hi & Hr).
  destruct (m w) as [[a|e|r] w'] eqn:E; simpl in *.
  - destruct (Hk a w') as (Ht' & Hd' & Hc' & Hi' & Hr').
    repeat split; try congruence. exact Hr'.
  - repeat split; auto; discriminate.
  - repeat split; auto. intros r' H; inversion H; subst. now apply Hr.
Qed.

Lemma tame_tryCatch {A} (m : M A) (h : exn -> M A) :
  tame m -> (forall e, tame (h e)) -> tame (tryCatch m h).
Proof.
  intros Hm Hh w. unfold tryCatch.
  destruct (Hm w) as (Ht & Hd & Hc & Hi & Hr).
  destruct (m w) as [[a|e|r] w'] eqn:E; simpl in *.
  - repeat split; auto; discriminate.
  - destruct (Hh e w') as (Ht' & Hd' & Hc' & Hi' & Hr').
    repeat split; try congruence. exact Hr'.
  - repeat split; auto.
Qed.

Lemma tame_fetch (call : Http.FetchCall) : tame (fetch env call).
Proof.
  intros w. unfold fetch.
  destruct (net env (List.length (fetched w)) call); simpl; repeat split; discriminate.
Qed.

Lemma tame_lift {A} (r : result A) : tame (lift r).
Proof. destruct r; [apply tame_ret | apply tame_throw]. Qed.

Lemma tame_json (r : Http.Response) : tame (json_ r).
Proof. unfold json_. destruct (Http.bodyJson r); [apply tame_ret | apply tame_throw]. Qed.

Ltac tame_step :=
  first
    [ apply tame_ret | apply tame_throw | apply tame_returnNow
    | apply tame_fetch | apply tame_lift | apply tame_json
    | apply tame_bind; [| intro]
    | apply tame_tryCatch; [| intro]
    | match goal with
      | |- tame (if ?b then _ else _) => destruct b
      | |- tame (match ?x with _ => _ end) => destruct x
      end ].

Lemma tame_fallback (enhancedPrompt : string) : tame (fallback env enhancedPrompt).
Proof. unfold fallback. repeat tame_step. Qed.

Lemma tame_dispatch (req : Req.t) (enhancedPrompt : string) :
  tame (dispatch env req enhancedPrompt).
Proof.
  unfold dispatch, openai, mistral, claude, pollinations, custom.
  repeat first [ apply tame_fallback | tame_step ].
Qed.

(** *** The handler, step by step *)

(** [recall] never fails: it answers the singleton, the turns read back and
    their rendering. *)
Lemma recall_unfold (req : Req.t) (p : string) (w : World) :
  let cm := fst (Memory.getChatMemory env (Req.sessionId req) w) in
  let w1 := snd (Memory.getChatMemory env (Req.sessionId req) w) in
  let w2 := Memory.saveMessage env cm Store.user (Some (JStr p)) w1 in
  let mem := fst (Memory.getMemory env cm 10 w2) in
  let w3 := snd (Memory.getMemory env cm 10 w2) in
  recall env req p w = (Value (cm, mem, Memory.formatMemoryForPrompt mem), w3).
Proof.
  unfold recall, bindM, liftS, exec, ret.
  destruct (Memory.getChatMemory env (Req.sessionId req) w) as [cm w1]; simpl.
  destruct (Memory.getMemory env cm 10 _) as [mem w3]; reflexivity.
Qed.

Lemma recall_effect (req : Req.t) (p : string) (w w3 : World)
    (cm : ChatMemory) (mem : list ChatMessage) (ctx : string) :
  recall env req p w = (Value (cm, mem, ctx), w3) ->
  cm = fst (Memory.getChatMemory env (Req.sessionId req) w)
  /\ ctx = Memory.formatMemoryForPrompt mem
  /\ table w3
     = (table w ++ appended env (dbOps w) (Memory.getSessionId cm) Store.user
                     (Some (JStr p)))%list
  /\ dbOps w3 = S (S (dbOps w))
  /\ fetched w3 = fetched w
  /\ currentMemory w3 = Some cm.
Proof.
  rewrite recall_unfold. intros H. inversion H; subst; clear H.
  set (cm := fst (Memory.getChatMemory env (Req.sessionId req) w)).
  set (w1 := snd (Memory.getChatMemory env (Req.sessionId req) w)).
  destruct (getChatMemory_frame env (Req.sessionId req) w) as (Ht1 & Hf1 & Hd1).
  pose proof (getChatMemory_current env (Req.sessionId req) w) as Hc1.
  fold w1 in Ht1, Hf1, Hd1, Hc1. fold cm in Hc1.
  destruct (saveMessage_effect cm Store.user (Some (JStr p)) w1) as (Ht2 & Hd2 & Hf2 & Hc2).
  destruct (getMemory_effect cm 10 (Memory.saveMessage env cm Store.user (Some (JStr p)) w1))
    as (Ht3 & Hd3 & Hf3 & Hc3).
  repeat split; try reflexivity; congruence.
Qed.

Lemma checkReply_world (reply : Reply) (w : World) : snd (checkReply reply w) = w.
Proof.
  unfold checkReply. destruct (fst reply) as [r|]; [destruct (Http.ok r)|]; reflexivity.
Qed.

Lemma checkReply_no_return (reply : Reply) (w : World) (r : HttpResponse) :
  fst (checkReply reply w) <> Return r.
Proof.
  unfold checkReply. destruct (fst reply) as [r'|]; [destruct (Http.ok r')|]; discriminate.
Qed.

(** The answer of [POST] in terms of the outcome of the dispatch. *)
Lemma POST_unfold (req : Req.t) (p : string) (w w3 : World)
    (cm : ChatMemory) (mem : list ChatMessage) (ctx : string) :
  Req.prompt req = Some p -> p <> "" ->
  recall env req p w = (Value (cm, mem, ctx), w3) ->
  POST env req w
  = match dispatch env req (enhance req ctx p) w3 with
    | (Value reply, w4) =>
        match fst (checkReply reply w4) with
        | Value _ =>
            (Ok {| response := snd reply;
                   model := Req.model req;
                   filesProcessed :=
                     match Req.files req with
                     | Some files => List.length files
                     | None => 0%nat
                     end;
                   sessionId := Memory.getSessionId cm;
                   memoryContext := (0 <? List.length mem)%nat;
                   selectedApi := Req.selectedApi req |},
             Memory.saveMessage env cm Store.assistant (snd reply) w4)
        | Throw e => (ServerError e, w4)
        | Return r => (r, w4)
        end
    | (Throw e, w4) => (ServerError e, w4)
    | (Return r, w4) => (r, w4)
    end.
Proof.
  intros Hp Hne Hrec. apply String.eqb_neq in Hne.
  unfold POST, handle. rewrite Hp, Hne. unfold bindM at 1. rewrite Hrec.
  unfold bindM at 1.
  destruct (dispatch env req (enhance req ctx p) w3) as [[reply|e|r] w4]; try reflexivity.
  unfold bindM at 1.
  pose proof (checkReply_world reply w4) as Hw.
  destruct (checkReply reply w4) as [[u|e|r] w5]; simpl in Hw; subst w5; reflexivity.
Qed.

(** The table after [POST]: the user turn, then the assistant turn exactly
    when the answer is a success. *)
Lemma POST_table (req : Req.t) (p : string) (w : World) :
  Req.prompt req = Some p -> p <> "" ->
  let cm := fst (Memory.getChatMemory env (Req.sessionId req) w) in
  table (snd (POST env req w))
  = (table w
     ++ appended env (dbOps w) (Memory.getSessionId cm) Store.user (Some (JStr p))
     ++ match fst (POST env req w) with
        | Ok payload =>
            appended env (S (S (dbOps w))) (Memory.getSessionId cm) Store.assistant
              (response payload)
        | _ => []
        end)%list.
Proof.
  intros Hp Hne cm.
  assert (exists mem ctx w3, recall env req p w = (Value (cm, mem, ctx), w3))
    as (mem & ctx & w3 & Hrec) by (rewrite recall_unfold; eauto).
  destruct (recall_effect _ _ _ _ _ _ _ Hrec) as (_ & _ & Ht3 & Hd3 & _ & _).
  rewrite (POST_unfold req p w w3 cm mem ctx Hp Hne Hrec).
  match goal with |- context [dispatch env req ?e ?w3] =>
    destruct (tame_dispatch req e w3) as (Ht4 & Hd4 & _ & _ & Hr4);
    destruct (dispatch env req e w3) as [[reply|e'|r] w4] eqn:Hdis
  end; simpl in Ht4, Hd4, Hr4; simpl.
  - destruct (fst (checkReply reply w4)) as [u|e'|r] eqn:Hck; simpl.
    + destruct (saveMessage_effect cm Store.assistant (snd reply) w4) as (Hs & _).
      rewrite Hs, Ht4, Ht3, Hd4, Hd3, <- app_assoc. reflexivity.
    + now rewrite Ht4, Ht3, app_nil_r.
    + now apply checkReply_no_return in Hck.
  - now rewrite Ht4, Ht3, app_nil_r.
  - specialize (Hr4 r eq_refl). destruct r; try discriminate.
    now rewrite Ht4, Ht3, app_nil_r.
Qed.

(** *** When no provider answers *)

Hypothesis no_success :
  forall k call r, net env k call = Http.Resolved r -> Http.ok r = false.

Lemma fetch_then_unanswered (call : Http.FetchCall) (k : Http.Response -> M Reply)
    (w w' : World) (reply : Reply) :
  (forall r, Http.ok r = false -> k r = ret (Some r, None)) ->
  bindM (fetch env call) k w = (Value reply, w') ->
  exists r, fst reply = Some r /\ Http.ok r = false.
Proof.
  intros Hk. unfold bindM, fetch.
  destruct (net env (List.length (fetched w)) call) as [|r] eqn:E; [discriminate|].
  rewrite (Hk r (no_success _ _ _ E)). unfold ret. intros H; inversion H; subst.
  exists r. split; [reflexivity | exact (no_success _ _ _ E)].
Qed.

Ltac unanswered :=
  match goal with
  | H : bindM (fetch env _) _ _ = (Value _, _) |- _ =>
      apply fetch_then_unanswered in H;
      [exact H | let r := fresh in let Hr := fresh in intros r Hr; now rewrite Hr]
  | H : returnNow _ _ = (Value _, _) |- _ => discriminate H
  end.

Lemma fallback_unanswered (enhancedPrompt : string) (w w' : World) (reply : Reply) :
  fallback env enhancedPrompt w = (Value reply, w') ->
  exists r, fst reply = Some r /\ Http.ok r = false.
Proof. unfold fallback. intros H. unanswered. Qed.

Lemma dispatch_unanswered (req : Req.t) (enhancedPrompt : string) (w w' : World)
    (reply : Reply) :
  dispatch env req enhancedPrompt w = (Value reply, w') ->
  exists r, fst reply = Some r /\ Http.ok r = false.
Proof.
  unfold dispatch.
  destruct (equals (Req.selectedApi req) "openai").
  { unfold openai. destruct (negb _); intros H; unanswered. }
  destruct (equals (Req.selectedApi req) "mistral").
  { unfold mistral. destruct (negb _); intros H; unanswered. }
  destruct (equals (Req.selectedApi req) "claude").
  { unfold claude. destruct (negb _); intros H; unanswered. }
  destruct (_ || _).
  { unfold pollinations. intros H; unanswered. }
  unfold custom, tryCatch.
  match goal with |- context [match ?m w with _ => _ end] =>
    destruct (m w) as [[reply'|e|r] w''] eqn:E
  end.
  - intros H; inversion H; subst.
    destruct (apiConfigOf req) as [c|]; [destruct (present (Req.endpoint c))|].
    + unanswered.
    + now apply fallback_unanswered in E.
    + now apply fallback_unanswered in E.
  - apply fallback_unanswered.
  - discriminate.
Qed.

(** A network on which no call resolves with a success status never lets
    the handler answer 200. *)
Lemma POST_unanswered (req : Req.t) (w : World) :
  statusOf (fst (POST env req w)) <> 200%Z.
Proof.
  destruct (Req.prompt req) as [p|] eqn:Hp.
  2:{ unfold POST, handle. rewrite Hp. discriminate. }
  destruct (String.eqb_spec p "") as [->|Hne].
  { unfold POST, handle. rewrite Hp. discriminate. }
  assert (exists cm mem ctx w3, recall env req p w = (Value (cm, mem, ctx), w3))
    as (cm & mem & ctx & w3 & Hrec) by (rewrite recall_unfold; eauto 6).
  rewrite (POST_unfold req p w w3 cm mem ctx Hp Hne Hrec).
  destruct (tame_dispatch req (enhance req ctx p) w3) as (_ & _ & _ & _ & Hret).
  destruct (dispatch env req (enhance req ctx p) w3) as [[reply|e|r] w4] eqn:Hd;
    simpl in *.
  - destruct (dispatch_unanswered _ _ _ _ _ Hd) as (r & Hr & Hok).
    unfold checkReply. rewrite Hr, Hok. discriminate.
  - discriminate.
  - rewrite (Hret r eq_refl). discriminate.
Qed.

End RouteFacts.

(** ** The handler: request validation and credentials *)

(** C1, as the code has it.  A request whose prompt is missing or the empty
    string is answered 400 [Prompt is required] and the world is left as it
    was: no session is created, no turn is written, nothing is fetched.
    The prompt is not trimmed. *)
Theorem POST_rejects_missing_prompt :
  forall (env : Env) (req : Req.t) (w : World),
    present (Req.prompt req) = false ->
    Route.POST env req w = (Route.BadRequest "Prompt is required", w).
Proof.
  intros env req w H. unfold Route.POST, Route.handle.
  destruct (Req.prompt req) as [p|]; simpl in H; [|reflexivity].
  destruct (p =? ""); [reflexivity|discriminate].
Qed.

Lemma POST_rejects_missing_prompt_witness :
  Route.POST (Scenario.always (Scenario.textReply "hi"))
    (Scenario.ask (Some "s1") None "") Scenario.emptyWorld
  = (Route.BadRequest "Prompt is required", Scenario.emptyWorld).
Proof.
  apply (POST_rejects_missing_prompt (Scenario.always (Scenario.textReply "hi"))
           (Scenario.ask (Some "s1") None "") Scenario.emptyWorld).
  reflexivity.
Defined.

(** C1 fails for a prompt of one space: it trims to the empty string, yet
    the handler answers 200, stores two turns and fetches once. *)
Lemma POST_accepts_blank_prompt :
  JsString.trim " " = ""
  /\ Route.POST (Scenario.always (Scenario.textReply "hi"))
       (Scenario.ask (Some "s1") None " ") Scenario.emptyWorld
     <> (Route.BadRequest "Prompt is required", Scenario.emptyWorld)
  /\ Route.statusOf
       (fst (Route.POST (Scenario.always (Scenario.textReply "hi"))
               (Scenario.ask (Some "s1") None " ") Scenario.emptyWorld)) = 200%Z
  /\ table (snd (Route.POST (Scenario.always (Scenario.textReply "hi"))
                   (Scenario.ask (Some "s1") None " ") Scenario.emptyWorld))
     = [Scenario.turn "s1" Store.user " "; Scenario.turn "s1" Store.assistant "hi"]
  /\ List.length
       (fetched (snd (Route.POST (Scenario.always (Scenario.textReply "hi"))
                        (Scenario.ask (Some "s1") None " ") Scenario.emptyWorld))) = 1%nat.
Proof.
  repeat split; try (vm_compute; reflexivity).
  vm_compute. discriminate.
Qed.

(** C3. With [selectedApi = 'openai'], no key in [selectedApiConfig] and no
    [OPENAI_API_KEY], a request with a prompt is answered 400
    [OpenAI API key is required] and no fetch is made. *)
Theorem openai_without_key_not_dispatched :
  forall (env : Env) (req : Req.t) (p : string) (w : World),
    Req.prompt req = Some p -> p <> "" ->
    Req.selectedApi req = Some "openai" ->
    present (Route.configKey req) = false ->
    present (OPENAI_API_KEY env) = false ->
    fst (Route.POST env req w) = Route.BadRequest "OpenAI API key is required"
    /\ fetched (snd (Route.POST env req w)) = fetched w.
Proof.
  intros env req p w Hp Hne Hsel Hcfg Henv.
  assert (exists cm mem ctx w3,
             Route.recall env req p w = (Route.Value (cm, mem, ctx), w3))
    as (cm & mem & ctx & w3 & Hrec) by (rewrite recall_unfold; eauto 6).
  destruct (recall_effect _ _ _ _ _ _ _ _ Hrec) as (_ & _ & _ & _ & Hf & _).
  rewrite (POST_unfold env req p w w3 cm mem ctx Hp Hne Hrec).
  unfold Route.dispatch. rewrite Hsel. simpl equals. cbv iota.
  unfold Route.openai. rewrite Hcfg, Henv. simpl. auto.
Qed.

Lemma openai_without_key_not_dispatched_witness :
  fst (Route.POST (Scenario.always (Scenario.textReply "hi"))
         (Scenario.ask (Some "s1") (Some "openai") "hello") Scenario.emptyWorld)
  = Route.BadRequest "OpenAI API key is required"
  /\ fetched (snd (Route.POST (Scenario.always (Scenario.textReply "hi"))
                     (Scenario.ask (Some "s1") (Some "openai") "hello")
                     Scenario.emptyWorld))
     = fetched Scenario.emptyWorld.
Proof.
  apply (openai_without_key_not_dispatched
           (Scenario.always (Scenario.textReply "hi"))
           (Scenario.ask (Some "s1") (Some "openai") "hello") "hello"
           Scenario.emptyWorld);
    first [reflexivity | discriminate].
Defined.

(** ** The handler: failed generations *)

(** C4. When the handler does not answer 200 to a request with a prompt,
    the table is the old table followed by what saving the user turn
    added: the user turn of this request when storage took it, and no
    assistant turn. *)
Theorem failed_generation_keeps_user_turn :
  forall (env : Env) (req : Req.t) (p : string) (w : World),
    Req.prompt req = Some p -> p <> "" ->
    Route.statusOf (fst (Route.POST env req w)) <> 200%Z ->
    let sid := Memory.getSessionId (fst (Memory.getChatMemory env (Req.sessionId req) w)) in
    table (snd (Route.POST env req w))
    = (table w ++ Facts.appended env (dbOps w) sid Store.user (Some (JStr p)))%list
    /\ (dbUp env (dbOps w) = true ->
        table (snd (Route.POST env req w))
        = (table w ++ [{| Store.sessionId := sid; Store.role := Store.user;
                          Store.content := p |}])%list).
Proof.
  intros env req p w Hp Hne Hfail sid.
  pose proof (POST_table env req p w Hp Hne) as Ht. cbv zeta in Ht. fold sid in Ht.
  assert (H : table (snd (Route.POST env req w))
              = (table w ++ Facts.appended env (dbOps w) sid Store.user (Some (JStr p)))%list).
  { rewrite Ht. destruct (fst (Route.POST env req w)); simpl in *;
      rewrite ?app_nil_r; congruence. }
  split; [exact H|].
  intros Hup. rewrite H. unfold Facts.appended. now rewrite Hup.
Qed.

Lemma failed_generation_keeps_user_turn_witness :
  table (snd (Route.POST (Scenario.always (Scenario.failedReply 503 "busy"))
                (Scenario.ask (Some "s1") None "hello") Scenario.emptyWorld))
  = [Scenario.turn "s1" Store.user "hello"].
Proof.
  apply (failed_generation_keeps_user_turn
           (Scenario.always (Scenario.failedReply 503 "busy"))
           (Scenario.ask (Some "s1") None "hello") "hello" Scenario.emptyWorld);
    first [reflexivity | discriminate | (vm_compute; discriminate)].
Defined.

(** ** The handler: provider selection *)

Section Fallback.

Import Route Facts.

Variable env : Env.

Lemma find_absent (api : string) (l : list Req.ApiConfig) :
  (forall c, In c l -> Req.id c <> api) ->
  find (fun c => equals (Some api) (Req.id c)) l = None.
Proof.
  induction l as [|c l IH]; intros H; [reflexivity|].
  simpl. destruct (api =? Req.id c) eqn:E.
  - apply String.eqb_eq in E. exfalso. apply (H c); [now left | now symmetry].
  - apply IH. intros c' Hc'. apply H. now right.
Qed.

(** What [fallback] does, by the outcome of its fetch. *)
Lemma fallback_run (enhancedPrompt : string) (w : World) :
  let call := {| Http.url := pollinationsUrl enhancedPrompt; Http.init := None |} in
  fallback env enhancedPrompt w
  = match net env (List.length (fetched w)) call with
    | Http.Resolved r =>
        (Value (Some r, if Http.ok r then Some (JStr (Http.bodyText r)) else None),
         logFetch w call)
    | Http.Rejected => (Throw FetchFailed, logFetch w call)
    end.
Proof.
  unfold fallback, bindM, fetch.
  destruct (net env (List.length (fetched w)) _) as [|r]; [reflexivity|].
  now destruct (Http.ok r).
Qed.

(** An id that is none of the built-in ones, is not in the catalogue, and
    comes without a usable [selectedApiConfig], sends the custom branch to
    the fallback, once more after a rejected fetch. *)
Lemma custom_unresolved (req : Req.t) (api enhancedPrompt : string) (w : World) :
  Req.selectedApi req = Some api ->
  (forall c, In c (allApis req) -> Req.id c <> api) ->
  (forall c, Req.selectedApiConfig req = Some c -> present (Req.endpoint c) = false) ->
  custom env req enhancedPrompt w
  = tryCatch (fallback env enhancedPrompt) (fun _ => fallback env enhancedPrompt) w.
Proof.
  intros Hsel Hcat Hcfg. unfold custom, apiConfigOf, tryCatch.
  rewrite Hsel, (find_absent api _ Hcat).
  destruct (Req.selectedApiConfig req) as [c|]; [|reflexivity].
  now rewrite (Hcfg c eq_refl).
Qed.

Lemma dispatch_custom (req : Req.t) (api enhancedPrompt : string) :
  Req.selectedApi req = Some api ->
  api <> "" -> api <> "openai" -> api <> "mistral" -> api <> "claude" ->
  api <> "pollinations" ->
  dispatch env req enhancedPrompt = custom env req enhancedPrompt.
Proof.
  intros Hsel H0 H1 H2 H3 H4. unfold dispatch. rewrite Hsel. simpl.
  apply String.eqb_neq in H0, H1, H2, H3, H4.
  now rewrite H0, H1, H2, H3, H4.
Qed.

End Fallback.

(** C2, as the code has it.  Let the provider id be none of the built-in
    ones, match no entry of [customApis] and [localModels], and come with
    no [selectedApiConfig] that has an endpoint.  Then every fetch of the
    request is [fetch] of the Pollinations URL of the prompt sent: one, or a
    second one when the first is rejected.  When the last of them resolves
    with a success status the handler answers 200 with its text; otherwise
    it answers 500 with the failure of Pollinations. *)
Theorem unknown_provider_falls_back :
  forall (env : Env) (req : Req.t) (p api : string) (w : World),
    Req.prompt req = Some p -> p <> "" ->
    Req.selectedApi req = Some api ->
    api <> "" -> api <> "openai" -> api <> "mistral" -> api <> "claude" ->
    api <> "pollinations" ->
    (forall c, In c (Route.allApis req) -> Req.id c <> api) ->
    (forall c, Req.selectedApiConfig req = Some c -> present (Req.endpoint c) = false) ->
    let call := Facts.fallbackCall env req p w in
    let k := List.length (fetched w) in
    let again := match net env k call with Http.Rejected => true | _ => false end in
    let last := if again then net env (S k) call else net env k call in
    fetched (snd (Route.POST env req w))
    = (fetched w ++ call :: (if again then [call] else []))%list
    /\ match last with
       | Http.Resolved r =>
           if Http.ok r then
             exists payload,
               fst (Route.POST env req w) = Route.Ok payload
               /\ Route.response payload = Some (JStr (Http.bodyText r))
           else exists msg, fst (Route.POST env req w) = Route.ServerError (ApiError msg)
       | Http.Rejected => fst (Route.POST env req w) = Route.ServerError FetchFailed
       end.
Proof.
  intros env req p api w Hp Hne Hsel H0 H1 H2 H3 H4 Hcat Hcfg call k again last.
  assert (exists cm mem ctx w3,
             Route.recall env req p w = (Route.Value (cm, mem, ctx), w3))
    as (cm & mem & ctx & w3 & Hrec) by (rewrite recall_unfold; eauto 6).
  destruct (recall_effect _ _ _ _ _ _ _ _ Hrec) as (_ & _ & _ & _ & Hf & _).
  assert (Hcall : call = {| Http.url := Route.pollinationsUrl (Route.enhance req ctx p);
                            Http.init := None |}).
  { subst call. unfold Facts.fallbackCall, Facts.promptSent, Facts.injectedContext.
    now rewrite Hrec. }
  rewrite (POST_unfold env req p w w3 cm mem ctx Hp Hne Hrec).
  rewrite (dispatch_custom env req api _ Hsel H0 H1 H2 H3 H4).
  rewrite (custom_unresolved env req api _ w3 Hsel Hcat Hcfg).
  unfold Route.tryCatch. rewrite fallback_run. cbv zeta.
  subst last again k. rewrite <- Hf, <- Hcall.
  destruct (net env (List.length (fetched w3)) call) as [|r] eqn:E1.
  - rewrite fallback_run. cbv zeta. rewrite <- Hcall.
    replace (List.length (fetched (logFetch w3 call))) with (S (List.length (fetched w3)))
      by (simpl; rewrite length_app, Nat.add_comm; reflexivity).
    destruct (net env (S (List.length (fetched w3))) call) as [|r] eqn:E2.
    + simpl. rewrite <- app_assoc. auto.
    + unfold Route.checkReply. simpl fst. destruct (Http.ok r); simpl fst; simpl snd.
      * destruct (saveMessage_effect env cm Store.assistant
                    (Some (JStr (Http.bodyText r))) (logFetch (logFetch w3 call) call))
          as (_ & _ & Hs & _).
        rewrite Hs. simpl. rewrite <- app_assoc. split; eauto.
      * simpl. rewrite <- app_assoc. split; eauto.
  - unfold Route.checkReply. simpl fst. destruct (Http.ok r); simpl fst; simpl snd.
    + destruct (saveMessage_effect env cm Store.assistant
                  (Some (JStr (Http.bodyText r))) (logFetch w3 call)) as (_ & _ & Hs & _).
      rewrite Hs. simpl. split; eauto.
    + simpl. split; eauto.
Qed.

Lemma unknown_provider_falls_back_witness :
  fetched (snd (Route.POST (Scenario.always (Scenario.textReply "hi"))
                  (Scenario.ask (Some "s1") (Some "ghost") "hello") Scenario.emptyWorld))
  = [Facts.fallbackCall (Scenario.always (Scenario.textReply "hi"))
       (Scenario.ask (Some "s1") (Some "ghost") "hello") "hello" Scenario.emptyWorld]
  /\ exists payload,
       fst (Route.POST (Scenario.always (Scenario.textReply "hi"))
              (Scenario.ask (Some "s1") (Some "ghost") "hello") Scenario.emptyWorld)
       = Route.Ok payload
       /\ Route.response payload = Some (JStr "hi").
Proof.
  apply (unknown_provider_falls_back (Scenario.always (Scenario.textReply "hi"))
           (Scenario.ask (Some "s1") (Some "ghost") "hello") "hello" "ghost"
           Scenario.emptyWorld);
    first [reflexivity | discriminate | (intros c []) ].
Defined.

(** C2 fails when the request carries a [selectedApiConfig] with an
    endpoint: the id [ghost] is in no catalogue, and the one fetch goes to
    that endpoint, not to Pollinations. *)
Lemma unknown_provider_with_config_not_fallback :
  Route.allApis (Scenario.askWith Scenario.homeApi (Some "s1") (Some "ghost") "hello") = []
  /\ map Http.url
       (fetched (snd (Route.POST
                        (Scenario.always
                           (Scenario.jsonReply "{}" (JObj [("response", JStr "pong")])))
                        (Scenario.askWith Scenario.homeApi (Some "s1") (Some "ghost") "hello")
                        Scenario.emptyWorld)))
     = ["http://localhost:8080/generate"]
  /\ fetched (snd (Route.POST
                     (Scenario.always
                        (Scenario.jsonReply "{}" (JObj [("response", JStr "pong")])))
                     (Scenario.askWith Scenario.homeApi (Some "s1") (Some "ghost") "hello")
                     Scenario.emptyWorld))
     <> [Facts.fallbackCall
           (Scenario.always (Scenario.jsonReply "{}" (JObj [("response", JStr "pong")])))
           (Scenario.askWith Scenario.homeApi (Some "s1") (Some "ghost") "hello")
           "hello" Scenario.emptyWorld].
Proof.
  repeat split; try (vm_compute; reflexivity).
  vm_compute. discriminate.
Qed.

(** ** Normalisation *)

Lemma orM_Val (a : value) (b : result value) :
  orM (Val a) b = if truthy a then Val a else b.
Proof. reflexivity. Qed.

Lemma get_member (data : json) (k : string) :
  data <> JNull -> get (Some data) k = Val (member data k).
Proof. destruct data; simpl; congruence. Qed.

Lemma customResponseData_order (data : json) :
  data <> JNull -> Route.customResponseData data = Val (Facts.specCustomText data).
Proof.
  intros Hnn.
  unfold Route.customResponseData, Facts.specCustomText, Facts.firstTruthy,
    Facts.choiceContent.
  rewrite !get_member by assumption. simpl bind. fold (optGet0 (member data "choices")).
  destruct (truthy (optGet (optGet (optGet0 (member data "choices")) "message") "content"))
    eqn:E1; rewrite orM_Val, E1; [now rewrite orM_Val, E1, orM_Val, E1|].
  destruct (truthy (member data "content")) eqn:E2;
    rewrite orM_Val, E2; [now rewrite orM_Val, E2|].
  rewrite orM_Val. now destruct (truthy (member data "response")).
Qed.

Lemma extractResponseText_custom_order (data : json) :
  data <> JNull ->
  Local.extractResponseText "custom" data
  = Val (Facts.firstTruthy
           [member data "response"; member data "text"; member data "content"] data).
Proof.
  intros Hnn. unfold Local.extractResponseText, Facts.firstTruthy.
  simpl String.eqb. cbv iota. rewrite !get_member by assumption.
  destruct (truthy (member data "response")) eqn:E1;
    rewrite orM_Val, E1; [now rewrite orM_Val, E1, orM_Val, E1|].
  destruct (truthy (member data "text")) eqn:E2;
    rewrite orM_Val, E2; [now rewrite orM_Val, E2|].
  rewrite orM_Val. now destruct (truthy (member data "content")).
Qed.

(** A null payload makes both expressions throw on their first read. *)
Example customResponseData_null :
  Route.customResponseData JNull = Threw TypeError
  /\ Local.extractResponseText "custom" JNull = Threw TypeError.
Proof. split; reflexivity. Qed.

(** In the handler: a caller-supplied endpoint that answers a success status
    with a payload that is not null gives that extraction as the reply. *)
Lemma custom_reply_normalised (env : Env) (req : Req.t) (c : Req.ApiConfig)
    (enhancedPrompt : string) (w : World) (r : Http.Response) (data : json) :
  Route.apiConfigOf req = Some c -> present (Req.endpoint c) = true ->
  (forall call, net env (List.length (fetched w)) call = Http.Resolved r) ->
  Http.ok r = true -> Http.bodyJson r = Some data -> data <> JNull ->
  fst (Route.custom env req enhancedPrompt w)
  = Route.Value (Some r, Facts.specCustomText data).
Proof.
  intros Hcfg Hend Hnet Hok Hbody Hnn.
  unfold Route.custom, Route.tryCatch. rewrite Hcfg, Hend.
  unfold Route.bindM at 1. unfold Route.fetch. rewrite Hnet, Hok.
  unfold Route.bindM at 1. unfold Route.json_. rewrite Hbody. unfold Route.ret at 1.
  unfold Route.bindM. rewrite (customResponseData_order data Hnn). reflexivity.
Qed.

(** C6, as the code has it.  On a payload that is not null the custom
    branch of the text route takes the first truthy of
    [choices[0].message.content], [content] and [response], else the payload
    serialised, which is the order of the specification; the custom format
    of the local route takes the first truthy of [response], [text] and
    [content], else the payload serialised.  Neither throws, and the empty
    object gives its serialisation [{}] in both. *)
Theorem custom_payload_extraction :
  forall data : json,
    data <> JNull ->
    Route.customResponseData data = Val (Facts.specCustomText data)
    /\ Local.extractResponseText "custom" data
       = Val (Facts.firstTruthy
                [member data "response"; member data "text"; member data "content"] data)
    /\ Route.customResponseData (JObj []) = Val (Some (JStr "{}"))
    /\ Local.extractResponseText "custom" (JObj []) = Val (Some (JStr "{}")).
Proof.
  intros data Hnn. split; [|split; [|split]].
  - now apply customResponseData_order.
  - now apply extractResponseText_custom_order.
  - reflexivity.
  - reflexivity.
Qed.

Lemma custom_payload_extraction_witness :
  Route.customResponseData (JObj [("content", JStr "a"); ("response", JStr "b")])
  = Val (Some (JStr "a"))
  /\ Local.extractResponseText "custom" (JObj [("content", JStr "a"); ("response", JStr "b")])
     = Val (Some (JStr "b")).
Proof.
  destruct (custom_payload_extraction
              (JObj [("content", JStr "a"); ("response", JStr "b")]))
    as (H1 & H2 & _); [discriminate|].
  split; [exact H1 | exact H2].
Defined.

(** C6 fails on the local route: for a payload with both [content] and
    [response] its custom format answers [response], where the order of
    the specification answers [content]. *)
Lemma local_custom_prefers_response :
  Local.extractResponseText "custom" (JObj [("content", JStr "a"); ("response", JStr "b")])
  = Val (Some (JStr "b"))
  /\ Facts.specCustomText (JObj [("content", JStr "a"); ("response", JStr "b")])
     = Some (JStr "a")
  /\ Local.extractResponseText "custom" (JObj [("content", JStr "a"); ("response", JStr "b")])
     <> Val (Facts.specCustomText (JObj [("content", JStr "a"); ("response", JStr "b")])).
Proof.
  repeat split; try reflexivity. vm_compute. discriminate.
Qed.

(** C7, as the code has it.  For a payload that parsed to a value other
    than null, normalisation does not throw and degrades to the fallback
    of its branch: the Claude expression gives [content[0].text] or
    [No response from Claude]; the custom expression and every format of
    the local route give a value; the OpenAI and Mistral expression gives
    [choices[0].message.content] or its [No response from ...] text when
    the payload has a [choices] member that is not null. *)
Theorem parsed_payload_normalisation :
  forall data : json,
    data <> JNull ->
    Route.claudeResponseData data
    = Val (if truthy (optGet (optGet0 (member data "content")) "text")
           then optGet (optGet0 (member data "content")) "text"
           else Some (JStr "No response from Claude"))
    /\ Route.customResponseData data = Val (Facts.specCustomText data)
    /\ (forall format : string, exists v, Local.extractResponseText format data = Val v)
    /\ (forall (choices : json) (noResponse : string),
          member data "choices" = Some choices -> choices <> JNull ->
          Route.chatResponseData data noResponse
          = Val (if truthy (optGet (optGet (index0 choices) "message") "content")
                 then optGet (optGet (index0 choices) "message") "content"
                 else Some (JStr noResponse))).
Proof.
  intros data Hnn. split; [|split; [|split]].
  - unfold Route.claudeResponseData. rewrite get_member by assumption.
    unfold bind. rewrite orM_Val.
    now destruct (truthy (optGet (optGet0 (member data "content")) "text")).
  - now apply customResponseData_order.
  - intros format. unfold Local.extractResponseText.
    rewrite !get_member by assumption. simpl bind.
    destruct (format =? "openai"); [|destruct (format =? "ollama");
                                      [|destruct (format =? "custom")]];
      repeat (rewrite orM_Val; destruct (truthy _)); eexists; reflexivity.
  - intros choices noResponse Hc Hcn. unfold Route.chatResponseData.
    rewrite get_member by assumption. rewrite Hc.
    assert (Hg : get0 (Some choices) = Val (index0 choices))
      by (destruct choices; simpl; congruence).
    unfold bind. rewrite Hg, orM_Val.
    now destruct (truthy (optGet (optGet (index0 choices) "message") "content")).
Qed.

Lemma parsed_payload_normalisation_witness :
  Route.claudeResponseData (JObj []) = Val (Some (JStr "No response from Claude"))
  /\ Route.chatResponseData (JObj [("choices", JArr [])]) "No response from OpenAI"
     = Val (Some (JStr "No response from OpenAI")).
Proof.
  split.
  - apply (proj1 (parsed_payload_normalisation (JObj []) ltac:(discriminate))).
  - apply (proj2 (proj2 (proj2 (parsed_payload_normalisation
                                  (JObj [("choices", JArr [])]) ltac:(discriminate))))
             (JArr []) "No response from OpenAI");
      [reflexivity | discriminate].
Defined.

(** C7 fails on a body that cannot be read.  With the Claude provider a
    reply of status 200 whose body is not JSON makes [response.json()]
    throw, and a reply whose body is [null] makes the read of
    [data.content] throw; both are answered 500 to the caller. *)
Lemma unreadable_payload_raises :
  fst (Route.POST (Scenario.always (Scenario.textReply "<html>"))
         (Scenario.askWith (Scenario.withKey "claude") (Some "s1") (Some "claude") "hello")
         Scenario.emptyWorld)
  = Route.ServerError SyntaxError
  /\ fst (Route.POST (Scenario.always (Scenario.jsonReply "null" JNull))
            (Scenario.askWith (Scenario.withKey "claude") (Some "s1") (Some "claude") "hello")
            Scenario.emptyWorld)
     = Route.ServerError TypeError
  /\ Route.claudeResponseData JNull = Threw TypeError.
Proof.
  repeat split; vm_compute; reflexivity.
Qed.

(** The OpenAI and Mistral expression reads [data.choices[0]] without [?.]:
    for a payload without [choices] it throws, and the handler answers 500
    with the user turn stored and no assistant turn.  The Claude and the
    custom expressions, which write [?.] at that place, give their fallback
    on the same payload. *)
Example openai_payload_without_choices_throws :
  Route.chatResponseData (JObj []) "No response from OpenAI" = Threw TypeError
  /\ fst (Route.POST (Scenario.always (Scenario.jsonReply "{}" (JObj [])))
            (Scenario.askWith (Scenario.withKey "openai") (Some "s1") (Some "openai") "hello")
            Scenario.emptyWorld)
     = Route.ServerError TypeError
  /\ table (snd (Route.POST (Scenario.always (Scenario.jsonReply "{}" (JObj [])))
                   (Scenario.askWith (Scenario.withKey "openai") (Some "s1") (Some "openai")
                      "hello")
                   Scenario.emptyWorld))
     = [Scenario.turn "s1" Store.user "hello"]
  /\ Route.claudeResponseData (JObj []) = Val (Some (JStr "No response from Claude"))
  /\ Route.customResponseData (JObj []) = Val (Some (JStr "{}")).
Proof.
  repeat split; vm_compute; reflexivity.
Qed.

(** ** Context injection across two calls *)

Section TwoCalls.

Import Route Facts.

Variable env : Env.
Hypothesis storage_up : forall k, dbUp env k = true.

Lemma appended_up (k : nat) (sid : string) (r : Store.Role) (text : string) :
  appended env k sid r (Some (JStr text))
  = [{| Store.sessionId := sid; Store.role := r; Store.content := text |}].
Proof. unfold appended. now rewrite storage_up. Qed.

(** The turns of a session after a successful call that started from a
    session without turns. *)
Lemma POST_success_history (req : Req.t) (sid p reply : string) (payload : Success)
    (w : World) :
  sid <> "" -> Req.sessionId req = Some sid ->
  Req.prompt req = Some p -> p <> "" ->
  filter (Db.ofSession sid) (table w) = [] ->
  fst (POST env req w) = Ok payload -> response payload = Some (JStr reply) ->
  filter (Db.ofSession sid) (table (snd (POST env req w)))
  = [{| Store.sessionId := sid; Store.role := Store.user; Store.content := p |};
     {| Store.sessionId := sid; Store.role := Store.assistant; Store.content := reply |}].
Proof.
  intros Hsid Hreq Hp Hne Hfresh Hok Hresp.
  pose proof (POST_table env req p w Hp Hne) as Ht. cbv zeta in Ht.
  rewrite Hreq, (getChatMemory_given env sid w Hsid), Hok, Hresp, !appended_up in Ht.
  rewrite Ht, !filter_app, Hfresh. simpl.
  unfold Db.ofSession. simpl. now rewrite String.eqb_refl.
Qed.

(** The context injected for the next request of the session: the turns
    already stored, then the turn of the request itself. *)
Lemma injectedContext_next (req : Req.t) (sid p : string) (w : World)
    (history : list Store.Row) :
  sid <> "" -> Req.sessionId req = Some sid ->
  filter (Db.ofSession sid) (table w) = history ->
  (List.length history < 10)%nat ->
  injectedContext env req p w
  = Memory.formatMemoryForPrompt
      (map Memory.toMessage history ++ [{| role := Store.user; content := p |}])%list.
Proof.
  intros Hsid Hreq Hhist Hlen. unfold injectedContext.
  rewrite recall_unfold. cbv zeta. simpl fst. f_equal.
  rewrite Hreq.
  pose proof (getChatMemory_given env sid w Hsid) as Hcm.
  destruct (getChatMemory_frame env (Some sid) w) as (Ht1 & _ & _).
  set (cm := fst (Memory.getChatMemory env (Some sid) w)) in *.
  set (w1 := snd (Memory.getChatMemory env (Some sid) w)) in *.
  destruct (saveMessage_effect env cm Store.user (Some (JStr p)) w1) as (Ht2 & _).
  rewrite getMemory_up by apply storage_up.
  assert (Hrow : forall row, Store.sessionId row = sid ->
                 filter (Db.ofSession sid) [row] = [row]).
  { intros row Hr. simpl. unfold Db.ofSession. now rewrite Hr, String.eqb_refl. }
  rewrite Ht2, Hcm, appended_up, Ht1, filter_app, Hhist, Hrow by reflexivity.
  rewrite firstn_all2 by (rewrite length_app; simpl; lia).
  now rewrite map_app.
Qed.

End TwoCalls.

(** C8, as the code has it.  Storage working, a first call on a session
    without turns answers 200 with the text [r1].  The context injected by
    the second call of the session is then three lines between header and
    footer: the user turn and the assistant turn of the first call and the
    user turn of the second call itself, which is saved before the history
    is read. *)
Theorem second_call_context :
  forall (env : Env) (req1 req2 : Req.t) (sid p1 p2 r1 : string)
         (payload : Route.Success) (w : World),
    (forall k, dbUp env k = true) ->
    sid <> "" ->
    Req.sessionId req1 = Some sid -> Req.sessionId req2 = Some sid ->
    Req.prompt req1 = Some p1 -> p1 <> "" ->
    Req.prompt req2 = Some p2 -> p2 <> "" ->
    filter (Db.ofSession sid) (table w) = [] ->
    fst (Route.POST env req1 w) = Route.Ok payload ->
    Route.response payload = Some (JStr r1) ->
    Facts.injectedContext env req2 p2 (snd (Route.POST env req1 w))
    = "[Previous Conversation Context]" ++ JsString.LF
      ++ "USER: " ++ p1 ++ JsString.LF
      ++ "ASSISTANT: " ++ r1 ++ JsString.LF
      ++ "USER: " ++ p2 ++ JsString.LF
      ++ "[End of Context]" ++ JsString.LF ++ JsString.LF.
Proof.
  intros env req1 req2 sid p1 p2 r1 payload w Hup Hsid Hs1 Hs2 Hp1 Hn1 Hp2 Hn2
         Hfresh Hok Hresp.
  rewrite (injectedContext_next env Hup req2 sid p2 _ _ Hsid Hs2
             (POST_success_history env Hup req1 sid p1 r1 payload w
                Hsid Hs1 Hp1 Hn1 Hfresh Hok Hresp))
    by (simpl; lia).
  unfold Memory.formatMemoryForPrompt.
  cbn [List.length Nat.eqb app map String.concat role content Memory.toMessage
       Store.role Store.content].
  rewrite !append_assoc. reflexivity.
Qed.

Lemma second_call_context_witness :
  Facts.injectedContext (Scenario.always (Scenario.textReply "hi"))
    (Scenario.ask (Some "s1") None "world") "world"
    (snd (Route.POST (Scenario.always (Scenario.textReply "hi"))
            (Scenario.ask (Some "s1") None "hello") Scenario.emptyWorld))
  = "[Previous Conversation Context]" ++ JsString.LF
    ++ "USER: hello" ++ JsString.LF
    ++ "ASSISTANT: hi" ++ JsString.LF
    ++ "USER: world" ++ JsString.LF
    ++ "[End of Context]" ++ JsString.LF ++ JsString.LF.
Proof.
  apply (second_call_context (Scenario.always (Scenario.textReply "hi"))
           (Scenario.ask (Some "s1") None "hello") (Scenario.ask (Some "s1") None "world")
           "s1" "hello" "world" "hi"
           {| Route.response := Some (JStr "hi"); Route.model := None;
              Route.filesProcessed := 0; Route.sessionId := "s1";
              Route.memoryContext := true; Route.selectedApi := None |}
           Scenario.emptyWorld);
    first [reflexivity | discriminate].
Defined.

(** C8 fails on two calls with the prompts [hello] and [world] answered
    [hi]: the context of the second call has the three lines above, not
    only the two turns of the first call. *)
Lemma second_call_context_has_own_turn :
  Facts.injectedContext (Scenario.always (Scenario.textReply "hi"))
    (Scenario.ask (Some "s1") None "world") "world"
    (snd (Route.POST (Scenario.always (Scenario.textReply "hi"))
            (Scenario.ask (Some "s1") None "hello") Scenario.emptyWorld))
  <> Memory.formatMemoryForPrompt
       [{| role := Store.user; content := "hello" |};
        {| role := Store.assistant; content := "hi" |}]
  /\ Facts.injectedContext (Scenario.always (Scenario.textReply "hi"))
       (Scenario.ask (Some "s1") None "world") "world"
       (snd (Route.POST (Scenario.always (Scenario.textReply "hi"))
               (Scenario.ask (Some "s1") None "hello") Scenario.emptyWorld))
     = Memory.formatMemoryForPrompt
         [{| role := Store.user; content := "hello" |};
          {| role := Store.assistant; content := "hi" |};
          {| role := Store.user; content := "world" |}].
Proof.
  split; [vm_compute; discriminate | vm_compute; reflexivity].
Qed.

(** * Further properties of the code *)

(** ** The memory manager: clearing, appending, sessions *)

Section StoreFacts.

Variable env : Env.

Lemma ofSession_other (sid s : string) (r : Store.Row) :
  sid <> s -> Db.ofSession sid r = true -> Db.ofSession s r = false.
Proof.
  unfold Db.ofSession. intros Hne H. apply String.eqb_eq in H.
  apply String.eqb_neq. congruence.
Qed.

Lemma filter_cleared_same (s : string) (l : list Store.Row) :
  filter (Db.ofSession s) (filter (fun r => negb (Db.ofSession s r)) l) = [].
Proof.
  induction l as [|r l IH]; [reflexivity|]. simpl.
  destruct (Db.ofSession s r) eqn:E; simpl; [exact IH|]. now rewrite E.
Qed.

Lemma filter_cleared_other (sid s : string) (l : list Store.Row) :
  sid <> s ->
  filter (Db.ofSession sid) (filter (fun r => negb (Db.ofSession s r)) l)
  = filter (Db.ofSession sid) l.
Proof.
  intros Hne. induction l as [|r l IH]; [reflexivity|]. simpl.
  destruct (Db.ofSession s r) eqn:E; simpl.
  - destruct (Db.ofSession sid r) eqn:E'; [|exact IH].
    rewrite (ofSession_other sid s r Hne E') in E. discriminate.
  - now rewrite IH.
Qed.

Lemma filter_idempotent {A} (f : A -> bool) (l : list A) :
  filter f (filter f l) = filter f l.
Proof.
  induction l as [|x l IH]; [reflexivity|]. simpl.
  destruct (f x) eqn:E; simpl; [rewrite E|]; now rewrite ?IH.
Qed.

Lemma clearMemory_effect (m : ChatMemory) (w : World) :
  let w' := Memory.clearMemory env m w in
  table w'
  = (if dbUp env (dbOps w)
     then filter (fun r => negb (Db.ofSession (Memory.getSessionId m) r)) (table w)
     else table w)
  /\ dbOps w' = S (dbOps w) /\ fetched w' = fetched w
  /\ currentMemory w' = currentMemory w.
Proof.
  unfold Memory.clearMemory, Db.deleteMany, Memory.getSessionId.
  destruct (dbUp env (dbOps w)); simpl; auto.
Qed.

Lemma getFullMemory_effect (m : ChatMemory) (w : World) :
  let w' := snd (Memory.getFullMemory env m w) in
  table w' = table w /\ dbOps w' = S (dbOps w) /\ fetched w' = fetched w
  /\ currentMemory w' = currentMemory w.
Proof.
  unfold Memory.getFullMemory, Db.findMany.
  destruct (dbUp env (dbOps w)); simpl; auto.
Qed.

Lemma getFullMemory_read (m : ChatMemory) (w : World) :
  fst (Memory.getFullMemory env m w)
  = if dbUp env (dbOps w)
    then map Memory.toMessage (filter (Db.ofSession (Memory.getSessionId m)) (table w))
    else [].
Proof.
  unfold Memory.getFullMemory, Db.findMany, Memory.getSessionId.
  now destruct (dbUp env (dbOps w)).
Qed.

End StoreFacts.

(** X1. When storage takes the delete, [clearMemory] leaves no row of its
    own session, keeps the rows of every other session as they were, and a
    second [clearMemory] changes nothing more; whatever storage does
    afterwards, the next [getFullMemory] of the session is empty. *)
Theorem clearMemory_clears_own_session :
  forall (env : Env) (m : ChatMemory) (w : World),
    dbUp env (dbOps w) = true ->
    let w' := Memory.clearMemory env m w in
    filter (Db.ofSession (Memory.getSessionId m)) (table w') = []
    /\ (forall sid : string,
          sid <> Memory.getSessionId m ->
          filter (Db.ofSession sid) (table w') = filter (Db.ofSession sid) (table w))
    /\ table (Memory.clearMemory env m w') = table w'
    /\ fst (Memory.getFullMemory env m w') = [].
Proof.
  intros env m w Hup w'.
  destruct (clearMemory_effect env m w) as (Ht & Hd & _). fold w' in Ht, Hd.
  rewrite Hup in Ht.
  assert (Hown : filter (Db.ofSession (Memory.getSessionId m)) (table w') = [])
    by (rewrite Ht; apply filter_cleared_same).
  repeat split.
  - exact Hown.
  - intros sid Hne. rewrite Ht. now apply filter_cleared_other.
  - destruct (clearMemory_effect env m w') as (Ht' & _). rewrite Ht'.
    destruct (dbUp env (dbOps w')); [|reflexivity].
    rewrite Ht. apply filter_idempotent.
  - rewrite getFullMemory_read, Hown. now destruct (dbUp env (dbOps w')).
Qed.

Lemma clearMemory_clears_own_session_witness :
  filter (Db.ofSession "s1")
    (table (Memory.clearMemory (Scenario.always Http.Rejected) {| sessionId := "s1" |}
              {| table := [Scenario.turn "s1" Store.user "one";
                           Scenario.turn "s2" Store.user "two"];
                 currentMemory := None; fetched := []; dbOps := 0; minted := 0 |}))
  = [].
Proof.
  apply (clearMemory_clears_own_session (Scenario.always Http.Rejected)
           {| sessionId := "s1" |}
           {| table := [Scenario.turn "s1" Store.user "one";
                        Scenario.turn "s2" Store.user "two"];
              currentMemory := None; fetched := []; dbOps := 0; minted := 0 |}).
  reflexivity.
Defined.

(** X2. With storage working, turns saved one after the other are read
    back by [getFullMemory] after the turns the session already had, in the
    order in which they were saved. *)
Theorem saved_turns_read_back_in_order :
  forall (env : Env) (m : ChatMemory) (turns : list ChatMessage) (w : World),
    (forall k, dbUp env k = true) ->
    fst (Memory.getFullMemory env m
           (fold_left
              (fun (w : World) (t : ChatMessage) =>
                 Memory.saveMessage env m (role t) (Some (JStr (content t))) w)
              turns w))
    = (fst (Memory.getFullMemory env m w) ++ turns)%list.
Proof.
  intros env m turns w Hup. revert w.
  induction turns as [|t turns IH]; intros w; simpl.
  - now rewrite app_nil_r.
  - rewrite IH. rewrite !getFullMemory_read, !Hup.
    destruct (saveMessage_effect env m (role t) (Some (JStr (content t))) w) as (Ht & _).
    rewrite Ht. unfold Facts.appended. rewrite Hup.
    rewrite filter_app, map_app. simpl.
    unfold Db.ofSession at 2. simpl. rewrite String.eqb_refl. simpl.
    rewrite <- app_assoc. destruct t; reflexivity.
Qed.

Lemma saved_turns_read_back_in_order_witness :
  fst (Memory.getFullMemory (Scenario.always Http.Rejected) {| sessionId := "s1" |}
         (fold_left
            (fun (w : World) (t : ChatMessage) =>
               Memory.saveMessage (Scenario.always Http.Rejected) {| sessionId := "s1" |}
                 (role t) (Some (JStr (content t))) w)
            [{| role := Store.user; content := "one" |};
             {| role := Store.assistant; content := "two" |}]
            Scenario.emptyWorld))
  = [{| role := Store.user; content := "one" |};
     {| role := Store.assistant; content := "two" |}].
Proof.
  apply (saved_turns_read_back_in_order (Scenario.always Http.Rejected)
           {| sessionId := "s1" |}
           [{| role := Store.user; content := "one" |};
            {| role := Store.assistant; content := "two" |}]
           Scenario.emptyWorld).
  reflexivity.
Defined.

(** The cases of [getChatMemory]: whose id the answer has, and whether an
    id was generated. *)
Lemma getChatMemory_cases :
  forall (env : Env) (sid : option string) (w : World),
    let m := fst (Memory.getChatMemory env sid w) in
    let w' := snd (Memory.getChatMemory env sid w) in
    match currentMemory w with
    | Some cur =>
        minted w' = minted w
        /\ Memory.getSessionId m
           = (if present sid then orElse sid "" else Memory.getSessionId cur)
    | None =>
        if present sid then minted w' = minted w /\ Memory.getSessionId m = orElse sid ""
        else minted w' = S (minted w)
             /\ Memory.getSessionId m
                = "session_" ++ JsString.ofZ (now env (minted w)) ++ "_"
                  ++ random36 env (minted w)
    end.
Proof.
  intros env sid w. cbv zeta.
  unfold Memory.getChatMemory, Memory.new, Memory.generateSessionId.
  destruct (currentMemory w) as [cur|]; destruct sid as [s|]; simpl.
  - destruct (s =? "") eqn:E; simpl; [auto|].
    destruct (Memory.getSessionId cur =? s) eqn:E'; simpl; [|auto].
    apply String.eqb_eq in E'. auto.
  - auto.
  - destruct (s =? ""); simpl; auto.
  - auto.
Qed.

Lemma getChatMemory_keeps_counter (env : Env) (sid : option string) (w : World) :
  currentMemory w <> None ->
  minted (snd (Memory.getChatMemory env sid w)) = minted w
  /\ currentMemory (snd (Memory.getChatMemory env sid w)) <> None.
Proof.
  intros Hcur. pose proof (getChatMemory_cases env sid w) as H. cbv zeta in H.
  rewrite (getChatMemory_current env sid w).
  destruct (currentMemory w) as [cur|]; [|congruence].
  split; [apply H | discriminate].
Qed.

(** X3. A process generates at most one session id.  Over any sequence of
    calls of [getChatMemory], whatever session ids they are given, the
    counter of generated ids grows by at most one, and it does not grow at
    all once there is a current instance: every later call without a
    session id shares the session of the singleton. *)
Theorem getChatMemory_mints_at_most_once :
  forall (env : Env) (sids : list (option string)) (w : World),
    let w' := fold_left (fun w sid => snd (Memory.getChatMemory env sid w)) sids w in
    (minted w' <= S (minted w))%nat
    /\ (currentMemory w <> None -> minted w' = minted w).
Proof.
  intros env sids w. cbv zeta.
  assert (Hkeep : forall l v, currentMemory v <> None ->
            minted (fold_left (fun w sid => snd (Memory.getChatMemory env sid w)) l v)
            = minted v).
  { induction l as [|sid l IH]; intros v Hv; [reflexivity|]. simpl.
    destruct (getChatMemory_keeps_counter env sid v Hv) as (Hm & Hc).
    now rewrite IH, Hm. }
  split; [|apply Hkeep].
  destruct sids as [|sid sids]; simpl; [lia|].
  rewrite Hkeep by (rewrite getChatMemory_current; discriminate).
  pose proof (getChatMemory_cases env sid w) as H. cbv zeta in H.
  destruct (currentMemory w); [|destruct (present sid)]; destruct H as (H & _); lia.
Qed.

Lemma getChatMemory_mints_at_most_once_witness :
  minted (fold_left
            (fun w sid => snd (Memory.getChatMemory (Scenario.always Http.Rejected) sid w))
            [None; Some "s1"; None]
            (snd (Memory.getChatMemory (Scenario.always Http.Rejected) None
                    Scenario.emptyWorld)))
  = 1%nat.
Proof.
  apply (proj2 (getChatMemory_mints_at_most_once (Scenario.always Http.Rejected)
                  [None; Some "s1"; None]
                  (snd (Memory.getChatMemory (Scenario.always Http.Rejected) None
                          Scenario.emptyWorld)))).
  discriminate.
Defined.


(** ** The handler: credentials, stored turns, sessions *)

(** X4. The Mistral and the Claude branch take their key from
    [selectedApiConfig] only: without one the request is answered 400 with
    the message of the provider and nothing is fetched, whether or not
    [OPENAI_API_KEY] is set. *)
Theorem mistral_claude_need_config_key :
  forall (env : Env) (req : Req.t) (p : string) (w : World),
    Req.prompt req = Some p -> p <> "" ->
    present (Route.configKey req) = false ->
    (Req.selectedApi req = Some "mistral" ->
     fst (Route.POST env req w) = Route.BadRequest "Mistral API key is required"
     /\ fetched (snd (Route.POST env req w)) = fetched w)
    /\ (Req.selectedApi req = Some "claude" ->
        fst (Route.POST env req w) = Route.BadRequest "Claude API key is required"
        /\ fetched (snd (Route.POST env req w)) = fetched w).
Proof.
  intros env req p w Hp Hne Hcfg.
  assert (exists cm mem ctx w3,
             Route.recall env req p w = (Route.Value (cm, mem, ctx), w3))
    as (cm & mem & ctx & w3 & Hrec) by (rewrite recall_unfold; eauto 6).
  destruct (recall_effect _ _ _ _ _ _ _ _ Hrec) as (_ & _ & _ & _ & Hf & _).
  rewrite (POST_unfold env req p w w3 cm mem ctx Hp Hne Hrec).
  split; intros Hsel; unfold Route.dispatch; rewrite Hsel; simpl equals; cbv iota.
  - unfold Route.mistral. rewrite Hcfg. simpl. auto.
  - unfold Route.claude. rewrite Hcfg. simpl. auto.
Qed.

Lemma mistral_claude_need_config_key_witness :
  fst (Route.POST
         {| net := fun _ _ => Scenario.textReply "hi"; dbUp := fun _ => true;
            now := fun _ => 0%Z; random36 := fun _ => "r";
            OPENAI_API_KEY := Some "sk-env" |}
         (Scenario.ask (Some "s1") (Some "mistral") "hello") Scenario.emptyWorld)
  = Route.BadRequest "Mistral API key is required".
Proof.
  apply (proj1 (mistral_claude_need_config_key
                  {| net := fun _ _ => Scenario.textReply "hi"; dbUp := fun _ => true;
                     now := fun _ => 0%Z; random36 := fun _ => "r";
                     OPENAI_API_KEY := Some "sk-env" |}
                  (Scenario.ask (Some "s1") (Some "mistral") "hello") "hello"
                  Scenario.emptyWorld eq_refl ltac:(discriminate) eq_refl) eq_refl).
Defined.

(** X5. When the handler answers 200 with a text and storage took both
    saves, the table is the old table followed by the user turn and then
    the assistant turn of this request, both under the session id that the
    answer reports; that id is the one of the request when it has one. *)
Theorem successful_generation_appends_both_turns :
  forall (env : Env) (req : Req.t) (p text : string) (payload : Route.Success)
         (w : World),
    Req.prompt req = Some p -> p <> "" ->
    dbUp env (dbOps w) = true -> dbUp env (S (S (dbOps w))) = true ->
    fst (Route.POST env req w) = Route.Ok payload ->
    Route.response payload = Some (JStr text) ->
    table (snd (Route.POST env req w))
    = (table w
       ++ [{| Store.sessionId := Route.sessionId payload; Store.role := Store.user;
              Store.content := p |};
           {| Store.sessionId := Route.sessionId payload; Store.role := Store.assistant;
              Store.content := text |}])%list
    /\ (forall s : string,
          Req.sessionId req = Some s -> s <> "" -> Route.sessionId payload = s).
Proof.
  intros env req p text payload w Hp Hne Hup1 Hup2 Hok Hresp.
  assert (Hsid : Route.sessionId payload
                 = Memory.getSessionId
                     (fst (Memory.getChatMemory env (Req.sessionId req) w))).
  { assert (exists cm mem ctx w3,
               Route.recall env req p w = (Route.Value (cm, mem, ctx), w3))
      as (cm & mem & ctx & w3 & Hrec) by (rewrite recall_unfold; eauto 6).
    destruct (recall_effect _ _ _ _ _ _ _ _ Hrec) as (Hcm & _).
    rewrite (POST_unfold env req p w w3 cm mem ctx Hp Hne Hrec) in Hok.
    destruct (tame_dispatch env req (Route.enhance req ctx p) w3) as (_ & _ & _ & _ & Hret).
    destruct (Route.dispatch env req (Route.enhance req ctx p) w3) as [[reply|e|r] w4];
      simpl in Hok, Hret.
    - destruct (fst (Route.checkReply reply w4)) eqn:Hck; simpl in Hok.
      + inversion Hok; subst. reflexivity.
      + discriminate.
      + exfalso. eapply checkReply_no_return. exact Hck.
    - discriminate.
    - subst r. specialize (Hret _ eq_refl). discriminate. }
  split.
  - pose proof (POST_table env req p w Hp Hne) as Ht. cbv zeta in Ht.
    rewrite Hok, Hresp, <- Hsid in Ht. unfold Facts.appended in Ht.
    now rewrite Hup1, Hup2 in Ht.
  - intros s Hs Hsne. rewrite Hsid, Hs. now apply getChatMemory_given.
Qed.

Lemma successful_generation_appends_both_turns_witness :
  table (snd (Route.POST (Scenario.always (Scenario.textReply "hi"))
                (Scenario.ask (Some "s1") None "hello") Scenario.emptyWorld))
  = [Scenario.turn "s1" Store.user "hello"; Scenario.turn "s1" Store.assistant "hi"].
Proof.
  apply (proj1 (successful_generation_appends_both_turns
                  (Scenario.always (Scenario.textReply "hi"))
                  (Scenario.ask (Some "s1") None "hello") "hello" "hi"
                  {| Route.response := Some (JStr "hi"); Route.model := None;
                     Route.filesProcessed := 0; Route.sessionId := "s1";
                     Route.memoryContext := true; Route.selectedApi := None |}
                  Scenario.emptyWorld eq_refl ltac:(discriminate) eq_refl eq_refl
                  eq_refl eq_refl)).
Defined.

(** X6. For a request with a prompt, the handler only adds rows, and only
    rows of the session it resolved: the old table is kept as the front of
    the new one, and the rows of every other session are what they were. *)
Theorem POST_touches_only_its_session :
  forall (env : Env) (req : Req.t) (p : string) (w : World),
    Req.prompt req = Some p -> p <> "" ->
    let sid := Memory.getSessionId (fst (Memory.getChatMemory env (Req.sessionId req) w)) in
    firstn (List.length (table w)) (table (snd (Route.POST env req w))) = table w
    /\ forall other : string,
         other <> sid ->
         filter (Db.ofSession other) (table (snd (Route.POST env req w)))
         = filter (Db.ofSession other) (table w).
Proof.
  intros env req p w Hp Hne sid.
  pose proof (POST_table env req p w Hp Hne) as Ht. cbv zeta in Ht. fold sid in Ht.
  rewrite Ht. split.
  - rewrite firstn_app, Nat.sub_diag, firstn_all. simpl. now rewrite app_nil_r.
  - intros other Hother.
    assert (Hnone : forall k r c, filter (Db.ofSession other) (Facts.appended env k sid r c) = []).
    { intros k r c. unfold Facts.appended.
      destruct (dbUp env k); [|reflexivity].
      destruct c as [[| | |t| |]|]; try reflexivity. simpl.
      unfold Db.ofSession. simpl.
      destruct (String.eqb_spec sid other); [congruence | reflexivity]. }
    rewrite !filter_app, Hnone.
    destruct (fst (Route.POST env req w)); rewrite ?Hnone; simpl; now rewrite app_nil_r.
Qed.

Lemma POST_touches_only_its_session_witness :
  filter (Db.ofSession "s2")
    (table (snd (Route.POST (Scenario.always (Scenario.textReply "hi"))
                   (Scenario.ask (Some "s1") None "hello")
                   {| table := [Scenario.turn "s2" Store.user "other"];
                      currentMemory := None; fetched := []; dbOps := 0; minted := 0 |})))
  = [Scenario.turn "s2" Store.user "other"].
Proof.
  apply (proj2 (POST_touches_only_its_session
                  (Scenario.always (Scenario.textReply "hi"))
                  (Scenario.ask (Some "s1") None "hello") "hello"
                  {| table := [Scenario.turn "s2" Store.user "other"];
                     currentMemory := None; fetched := []; dbOps := 0; minted := 0 |}
                  eq_refl ltac:(discriminate)) "s2").
  discriminate.
Defined.

(** ** The handler: how many fetches, and which *)

Section FetchBounds.

Import Route Bounds.
Local Open Scope route_scope.

Variable env : Env.

Lemma atMost_weaken {A} (n n' : nat) (m : M A) :
  (n <= n')%nat -> fetchesAtMost n m -> fetchesAtMost n' m.
Proof.
  intros Hle H w. destruct (H w) as (calls & Hf & Hl). exists calls. split; [exact Hf | lia].
Qed.

Lemma atMost_pure {A} (m : M A) :
  (forall w, snd (m w) = w) -> fetchesAtMost 0 m.
Proof.
  intros H w. exists []. rewrite H, app_nil_r. split; [reflexivity | simpl; lia].
Qed.

Lemma atMost_ret {A} (a : A) : fetchesAtMost 0 (ret a).
Proof. now apply atMost_pure. Qed.

Lemma atMost_throw {A} (e : exn) : fetchesAtMost 0 (@throw A e).
Proof. now apply atMost_pure. Qed.

Lemma atMost_returnNow {A} (r : HttpResponse) : fetchesAtMost 0 (@returnNow A r).
Proof. now apply atMost_pure. Qed.

Lemma atMost_lift {A} (r : result A) : fetchesAtMost 0 (lift r).
Proof. destruct r; [apply atMost_ret | apply atMost_throw]. Qed.

Lemma atMost_json (r : Http.Response) : fetchesAtMost 0 (json_ r).
Proof. unfold json_. destruct (Http.bodyJson r); [apply atMost_ret | apply atMost_throw]. Qed.

Lemma atMost_fetch (call : Http.FetchCall) : fetchesAtMost 1 (fetch env call).
Proof.
  intros w. exists [call]. unfold fetch.
  destruct (net env (List.length (fetched w)) call); simpl; auto.
Qed.

Lemma atMost_bind {A B} (n1 n2 : nat) (m : M A) (k : A -> M B) :
  fetchesAtMost n1 m -> (forall a, fetchesAtMost n2 (k a)) ->
  fetchesAtMost (n1 + n2) (bindM m k).
Proof.
  intros Hm Hk w. unfold bindM.
  destruct (Hm w) as (c1 & Hf1 & Hl1).
  destruct (m w) as [[a|e|r] w'] eqn:E; simpl in Hf1.
  - destruct (Hk a w') as (c2 & Hf2 & Hl2).
    exists (c1 ++ c2)%list. rewrite Hf2, Hf1, app_assoc, length_app. split; [reflexivity | lia].
  - exists c1. simpl. split; [exact Hf1 | lia].
  - exists c1. simpl. split; [exact Hf1 | lia].
Qed.

Lemma atMost_tryCatch {A} (n1 n2 : nat) (m : M A) (h : exn -> M A) :
  fetchesAtMost n1 m -> (forall e, fetchesAtMost n2 (h e)) ->
  fetchesAtMost (n1 + n2) (tryCatch m h).
Proof.
  intros Hm Hh w. unfold tryCatch.
  destruct (Hm w) as (c1 & Hf1 & Hl1).
  destruct (m w) as [[a|e|r] w'] eqn:E; simpl in Hf1.
  - exists c1. simpl. split; [exact Hf1 | lia].
  - destruct (Hh e w') as (c2 & Hf2 & Hl2).
    exists (c1 ++ c2)%list. rewrite Hf2, Hf1, app_assoc, length_app. split; [reflexivity | lia].
  - exists c1. simpl. split; [exact Hf1 | lia].
Qed.

(** One fetch, then only reading of the response. *)
Lemma atMost_fetch_then {B} (call : Http.FetchCall) (k : Http.Response -> M B) :
  (forall r, fetchesAtMost 0 (k r)) -> fetchesAtMost 1 (bindM (fetch env call) k).
Proof. intros Hk. apply (atMost_bind 1 0); [apply atMost_fetch | exact Hk]. Qed.

Ltac reads_only :=
  repeat first
    [ apply atMost_ret | apply atMost_throw | apply atMost_returnNow
    | apply atMost_lift | apply atMost_json
    | apply (atMost_bind 0 0); [| intro]
    | match goal with
      | |- fetchesAtMost _ (if ?b then _ else _) => destruct b
      end ].

Ltac one_fetch :=
  first
    [ apply atMost_fetch_then; intro; reads_only
    | apply (atMost_weaken 0 1); [lia | apply atMost_returnNow] ].

Lemma atMost_fallback (enhancedPrompt : string) :
  fetchesAtMost 1 (fallback env enhancedPrompt).
Proof. unfold fallback. one_fetch. Qed.

Lemma atMost_openai (req : Req.t) (ep : string) : fetchesAtMost 1 (openai env req ep).
Proof. unfold openai. destruct (negb _); one_fetch. Qed.

Lemma atMost_mistral (req : Req.t) (ep : string) : fetchesAtMost 1 (mistral env req ep).
Proof. unfold mistral. destruct (negb _); one_fetch. Qed.

Lemma atMost_claude (req : Req.t) (ep : string) : fetchesAtMost 1 (claude env req ep).
Proof. unfold claude. destruct (negb _); one_fetch. Qed.

Lemma atMost_pollinations (req : Req.t) (ep : string) :
  fetchesAtMost 1 (pollinations env req ep).
Proof. unfold pollinations. one_fetch. Qed.

Lemma atMost_custom (req : Req.t) (ep : string) : fetchesAtMost 2 (custom env req ep).
Proof.
  unfold custom. apply (atMost_tryCatch 1 1); [|intro; apply atMost_fallback].
  destruct (apiConfigOf req) as [c|]; [destruct (present (Req.endpoint c))|];
    first [apply atMost_fallback | one_fetch].
Qed.

(** The number of fetches that the conditional chain allows for a
    provider id. *)
Lemma atMost_dispatch (req : Req.t) (ep : string) :
  fetchesAtMost
    (if equals (Req.selectedApi req) "openai" || equals (Req.selectedApi req) "mistral"
        || equals (Req.selectedApi req) "claude"
        || equals (Req.selectedApi req) "pollinations"
        || negb (present (Req.selectedApi req))
     then 1 else 2)
    (dispatch env req ep).
Proof.
  unfold dispatch.
  destruct (equals (Req.selectedApi req) "openai"); [apply atMost_openai|].
  destruct (equals (Req.selectedApi req) "mistral"); [apply atMost_mistral|].
  destruct (equals (Req.selectedApi req) "claude"); [apply atMost_claude|].
  simpl. destruct (_ || _); [apply atMost_pollinations | apply atMost_custom].
Qed.

End FetchBounds.

(** X7. One request makes at most two fetches, and at most one when the
    provider id is a built-in one or absent; a request without a prompt
    makes none.  Earlier entries of the log of fetches are kept. *)
Theorem POST_fetches_at_most_twice :
  forall (env : Env) (req : Req.t) (w : World),
    exists calls : list Http.FetchCall,
      fetched (snd (Route.POST env req w)) = (fetched w ++ calls)%list
      /\ (List.length calls <= 2)%nat
      /\ (equals (Req.selectedApi req) "openai" || equals (Req.selectedApi req) "mistral"
          || equals (Req.selectedApi req) "claude"
          || equals (Req.selectedApi req) "pollinations"
          || negb (present (Req.selectedApi req)) = true ->
          (List.length calls <= 1)%nat)
      /\ (present (Req.prompt req) = false -> calls = []).
Proof.
  intros env req w.
  destruct (present (Req.prompt req)) eqn:Hpres.
  2:{ exists [].
      assert (Hw : snd (Route.POST env req w) = w).
      { unfold Route.POST, Route.handle.
        destruct (Req.prompt req) as [p|]; simpl in Hpres; [|reflexivity].
        destruct (p =? ""); [reflexivity | discriminate]. }
      rewrite Hw, app_nil_r. repeat split; simpl; lia. }
  destruct (Req.prompt req) as [p|] eqn:Hp; [|discriminate].
  assert (Hne : p <> "") by (intros ->; discriminate).
  assert (exists cm mem ctx w3,
             Route.recall env req p w = (Route.Value (cm, mem, ctx), w3))
    as (cm & mem & ctx & w3 & Hrec) by (rewrite recall_unfold; eauto 6).
  destruct (recall_effect _ _ _ _ _ _ _ _ Hrec) as (_ & _ & _ & _ & Hf & _).
  rewrite (POST_unfold env req p w w3 cm mem ctx Hp Hne Hrec).
  destruct (atMost_dispatch env req (Route.enhance req ctx p) w3) as (calls & Hc & Hl).
  exists calls. rewrite <- Hf.
  assert (Hlog : fetched
                   (snd match Route.dispatch env req (Route.enhance req ctx p) w3 with
                        | (Route.Value reply, w4) =>
                            match fst (Route.checkReply reply w4) with
                            | Route.Value _ =>
                                (Route.Ok
                                   {| Route.response := snd reply;
                                      Route.model := Req.model req;
                                      Route.filesProcessed :=
                                        match Req.files req with
                                        | Some files => List.length files
                                        | None => 0%nat
                                        end;
                                      Route.sessionId := Memory.getSessionId cm;
                                      Route.memoryContext := (0 <? List.length mem)%nat;
                                      Route.selectedApi := Req.selectedApi req |},
                                 Memory.saveMessage env cm Store.assistant (snd reply) w4)
                            | Route.Throw e => (Route.ServerError e, w4)
                            | Route.Return r => (r, w4)
                            end
                        | (Route.Throw e, w4) => (Route.ServerError e, w4)
                        | (Route.Return r, w4) => (r, w4)
                        end)
                 = fetched (snd (Route.dispatch env req (Route.enhance req ctx p) w3))).
  { destruct (Route.dispatch env req (Route.enhance req ctx p) w3) as [[reply|e|r] w4];
      try reflexivity.
    destruct (fst (Route.checkReply reply w4)); try reflexivity. simpl.
    now destruct (saveMessage_effect env cm Store.assistant (snd reply) w4)
      as (_ & _ & Hs & _). }
  rewrite Hlog. split; [exact Hc|].
  destruct (_ || _); repeat split; intros; try lia; discriminate.
Qed.

Lemma POST_fetches_at_most_twice_witness :
  (List.length
     (fetched (snd (Route.POST (Scenario.always (Scenario.textReply "hi"))
                      (Scenario.ask (Some "s1") (Some "openai") "hello")
                      Scenario.emptyWorld))) <= 1)%nat.
Proof.
  destruct (POST_fetches_at_most_twice (Scenario.always (Scenario.textReply "hi"))
              (Scenario.ask (Some "s1") (Some "openai") "hello") Scenario.emptyWorld)
    as (calls & Hf & _ & H1 & _).
  rewrite Hf. simpl. apply H1. reflexivity.
Defined.

Section CustomBranch.

Import Route Bounds.

Variable env : Env.
Variable req : Req.t.
Variable c : Req.ApiConfig.
Hypothesis resolved : apiConfigOf req = Some c.
Hypothesis has_endpoint : present (Req.endpoint c) = true.

(** The call that the custom branch makes to the endpoint resolved. *)
Lemma custom_first_call (ep : string) (w : World) :
  exists call : Http.FetchCall,
    Http.url call = orElse (Req.endpoint c) ""
    /\ custom env req ep w
       = tryCatch
           (bindM (fetch env call)
              (fun response =>
                 if Http.ok response then
                   bindM (json_ response) (fun data =>
                   bindM (lift (customResponseData data)) (fun responseData =>
                   ret (Some response, responseData)))
                 else ret (Some response, None)))
           (fun _ => fallback env ep) w.
Proof.
  unfold custom. rewrite resolved, has_endpoint.
  eexists. split; [|reflexivity]. reflexivity.
Qed.

(** A failure status from the endpoint is the reply of the branch: nothing
    is thrown, so the fallback is not tried. *)
Lemma custom_failure_status (ep : string) (w : World) (r : Http.Response) :
  (forall call, net env (List.length (fetched w)) call = Http.Resolved r) ->
  Http.ok r = false ->
  exists call : Http.FetchCall,
    Http.url call = orElse (Req.endpoint c) ""
    /\ custom env req ep w = (Value (Some r, None), logFetch w call).
Proof.
  intros Hnet Hok. destruct (custom_first_call ep w) as (call & Hurl & Hrun).
  exists call. split; [exact Hurl|]. rewrite Hrun.
  unfold tryCatch, bindM, fetch. now rewrite Hnet, Hok.
Qed.

(** A reply that cannot be used makes the branch throw after its fetch,
    and the [catch] runs the fallback. *)
Lemma custom_unusable_reply (ep : string) (w : World) (o : Http.FetchOutcome) :
  (forall call, net env (List.length (fetched w)) call = o) ->
  unusable o ->
  exists call : Http.FetchCall,
    Http.url call = orElse (Req.endpoint c) ""
    /\ custom env req ep w = fallback env ep (logFetch w call).
Proof.
  intros Hnet Hun. destruct (custom_first_call ep w) as (call & Hurl & Hrun).
  exists call. split; [exact Hurl|]. rewrite Hrun.
  unfold tryCatch, bindM at 1, fetch. rewrite Hnet.
  destruct o as [|r]; [reflexivity|].
  destruct Hun as (Hok & [Hbody|Hbody]); rewrite Hok.
  - unfold bindM, json_. now rewrite Hbody.
  - unfold bindM at 1. unfold json_. rewrite Hbody. reflexivity.
Qed.

End CustomBranch.

(** X8. A caller-supplied endpoint that answers a failure status is not
    replaced by the fallback: the request makes that one fetch and is
    answered 500 with [API error: <status> - <body>], where a status of 0
    is written [Network]. *)
Theorem custom_failure_status_not_retried :
  forall (env : Env) (req : Req.t) (c : Req.ApiConfig) (p api : string) (w : World)
         (r : Http.Response),
    Req.prompt req = Some p -> p <> "" ->
    Req.selectedApi req = Some api ->
    api <> "" -> api <> "openai" -> api <> "mistral" -> api <> "claude" ->
    api <> "pollinations" ->
    Route.apiConfigOf req = Some c -> present (Req.endpoint c) = true ->
    (forall call, net env (List.length (fetched w)) call = Http.Resolved r) ->
    Http.ok r = false ->
    fst (Route.POST env req w)
    = Route.ServerError
        (ApiError ("API error: "
                   ++ (if (Http.status r =? 0)%Z then "Network"
                       else JsString.ofZ (Http.status r))
                   ++ " - " ++ Http.bodyText r))
    /\ exists call : Http.FetchCall,
         Http.url call = orElse (Req.endpoint c) ""
         /\ fetched (snd (Route.POST env req w)) = (fetched w ++ [call])%list.
Proof.
  intros env req c p api w r Hp Hne Hsel H0 H1 H2 H3 H4 Hcfg Hend Hnet Hok.
  assert (exists cm mem ctx w3,
             Route.recall env req p w = (Route.Value (cm, mem, ctx), w3))
    as (cm & mem & ctx & w3 & Hrec) by (rewrite recall_unfold; eauto 6).
  destruct (recall_effect _ _ _ _ _ _ _ _ Hrec) as (_ & _ & _ & _ & Hf & _).
  rewrite (POST_unfold env req p w w3 cm mem ctx Hp Hne Hrec).
  rewrite (dispatch_custom env req api _ Hsel H0 H1 H2 H3 H4).
  rewrite <- Hf in Hnet.
  destruct (custom_failure_status env req c Hcfg Hend (Route.enhance req ctx p) w3 r
              Hnet Hok) as (call & Hurl & Hrun).
  rewrite Hrun. unfold Route.checkReply. simpl fst. rewrite Hok. simpl.
  split; [reflexivity|]. exists call. now rewrite Hf.
Qed.

Lemma custom_failure_status_not_retried_witness :
  fst (Route.POST (Scenario.always (Scenario.failedReply 503 "busy"))
         (Scenario.askWith Scenario.homeApi (Some "s1") (Some "home") "hello")
         Scenario.emptyWorld)
  = Route.ServerError (ApiError "API error: 503 - busy").
Proof.
  apply (proj1 (custom_failure_status_not_retried
                  (Scenario.always (Scenario.failedReply 503 "busy"))
                  (Scenario.askWith Scenario.homeApi (Some "s1") (Some "home") "hello")
                  Scenario.homeApi "hello" "home" Scenario.emptyWorld
                  {| Http.status := 503; Http.bodyText := "busy"; Http.bodyJson := None |}
                  eq_refl ltac:(discriminate) eq_refl
                  ltac:(discriminate) ltac:(discriminate) ltac:(discriminate)
                  ltac:(discriminate) ltac:(discriminate)
                  eq_refl eq_refl (fun _ => eq_refl) eq_refl)).
Defined.

(** X9. When the fetch of a caller-supplied endpoint is rejected, or
    resolves with a success status and a body that is not JSON or is
    [null], the request goes on to Pollinations: its second and last fetch
    is the parameterless fallback call, and a success of that call is
    answered 200 with its text. *)
Theorem custom_unusable_reply_falls_back :
  forall (env : Env) (req : Req.t) (c : Req.ApiConfig) (p api : string) (w : World)
         (o : Http.FetchOutcome),
    Req.prompt req = Some p -> p <> "" ->
    Req.selectedApi req = Some api ->
    api <> "" -> api <> "openai" -> api <> "mistral" -> api <> "claude" ->
    api <> "pollinations" ->
    Route.apiConfigOf req = Some c -> present (Req.endpoint c) = true ->
    (forall call, net env (List.length (fetched w)) call = o) ->
    Bounds.unusable o ->
    (exists call : Http.FetchCall,
        Http.url call = orElse (Req.endpoint c) ""
        /\ fetched (snd (Route.POST env req w))
           = (fetched w ++ [call; Facts.fallbackCall env req p w])%list)
    /\ forall r : Http.Response,
         net env (S (List.length (fetched w))) (Facts.fallbackCall env req p w)
         = Http.Resolved r ->
         Http.ok r = true ->
         exists payload : Route.Success,
           fst (Route.POST env req w) = Route.Ok payload
           /\ Route.response payload = Some (JStr (Http.bodyText r)).
Proof.
  intros env req c p api w o Hp Hne Hsel H0 H1 H2 H3 H4 Hcfg Hend Hnet Hun.
  assert (exists cm mem ctx w3,
             Route.recall env req p w = (Route.Value (cm, mem, ctx), w3))
    as (cm & mem & ctx & w3 & Hrec) by (rewrite recall_unfold; eauto 6).
  destruct (recall_effect _ _ _ _ _ _ _ _ Hrec) as (_ & _ & _ & _ & Hf & _).
  assert (Hcall : Facts.fallbackCall env req p w
                  = {| Http.url := Route.pollinationsUrl (Route.enhance req ctx p);
                       Http.init := None |}).
  { unfold Facts.fallbackCall, Facts.promptSent, Facts.injectedContext.
    now rewrite Hrec. }
  rewrite (POST_unfold env req p w w3 cm mem ctx Hp Hne Hrec).
  rewrite (dispatch_custom env req api _ Hsel H0 H1 H2 H3 H4).
  rewrite <- Hf in Hnet |- *.
  destruct (custom_unusable_reply env req c Hcfg Hend (Route.enhance req ctx p) w3 o
              Hnet Hun) as (call & Hurl & Hrun).
  rewrite Hrun, fallback_run. cbv zeta. rewrite <- Hcall.
  replace (List.length (fetched (logFetch w3 call))) with (S (List.length (fetched w3)))
    by (simpl; rewrite length_app, Nat.add_comm; reflexivity).
  destruct (net env (S (List.length (fetched w3))) (Facts.fallbackCall env req p w))
    as [|r2] eqn:E2.
  - split.
    + exists call. split; [exact Hurl|]. simpl. now rewrite <- app_assoc.
    + intros r Hr. discriminate.
  - unfold Route.checkReply. simpl fst. destruct (Http.ok r2) eqn:Hok2; simpl fst; simpl snd.
    + split.
      * exists call. split; [exact Hurl|].
        destruct (saveMessage_effect env cm Store.assistant
                    (Some (JStr (Http.bodyText r2)))
                    (logFetch (logFetch w3 call) (Facts.fallbackCall env req p w)))
          as (_ & _ & Hs & _).
        rewrite Hs. simpl. now rewrite <- app_assoc.
      * intros r Hr _. inversion Hr; subst. eauto.
    + split.
      * exists call. split; [exact Hurl|]. simpl. now rewrite <- app_assoc.
      * intros r Hr Hokr. inversion Hr; subst. congruence.
Qed.

Lemma custom_unusable_reply_falls_back_witness :
  exists payload : Route.Success,
    fst (Route.POST
           {| net := fun k _ => if (k =? 0)%nat then Http.Rejected
                                else Scenario.textReply "hi";
              dbUp := fun _ => true; now := fun _ => 0%Z; random36 := fun _ => "r";
              OPENAI_API_KEY := None |}
           (Scenario.askWith Scenario.homeApi (Some "s1") (Some "home") "hello")
           Scenario.emptyWorld)
    = Route.Ok payload
    /\ Route.response payload = Some (JStr "hi").
Proof.
  apply (proj2 (custom_unusable_reply_falls_back
                  {| net := fun k _ => if (k =? 0)%nat then Http.Rejected
                                       else Scenario.textReply "hi";
                     dbUp := fun _ => true; now := fun _ => 0%Z; random36 := fun _ => "r";
                     OPENAI_API_KEY := None |}
                  (Scenario.askWith Scenario.homeApi (Some "s1") (Some "home") "hello")
                  Scenario.homeApi "hello" "home" Scenario.emptyWorld Http.Rejected
                  eq_refl ltac:(discriminate) eq_refl
                  ltac:(discriminate) ltac:(discriminate) ltac:(discriminate)
                  ltac:(discriminate) ltac:(discriminate)
                  eq_refl eq_refl (fun _ => eq_refl) I)
           {| Http.status := 200; Http.bodyText := "hi"; Http.bodyJson := None |}
           eq_refl eq_refl).
Defined.

(** ** The handler: what is injected *)

(** X10. With storage working, the context injected for a request is the
    rendering of the first ten of: the turns that the session already has,
    then the user turn of the request.  So once the session has ten turns
    or more, the context is its first ten turns and the prompt of the
    request is not part of it. *)
Theorem injected_context_window :
  forall (env : Env) (req : Req.t) (p : string) (w : World),
    (forall k, dbUp env k = true) ->
    let sid := Memory.getSessionId (fst (Memory.getChatMemory env (Req.sessionId req) w)) in
    let history := map Memory.toMessage (filter (Db.ofSession sid) (table w)) in
    Facts.injectedContext env req p w
    = Memory.formatMemoryForPrompt
        (firstn 10 (history ++ [{| role := Store.user; content := p |}]))
    /\ ((10 <= List.length history)%nat ->
        Facts.injectedContext env req p w
        = Memory.formatMemoryForPrompt (firstn 10 history)).
Proof.
  intros env req p w Hup sid history.
  assert (H : Facts.injectedContext env req p w
              = Memory.formatMemoryForPrompt
                  (firstn 10 (history ++ [{| role := Store.user; content := p |}]))).
  { unfold Facts.injectedContext. rewrite recall_unfold. cbv zeta. simpl fst. f_equal.
    destruct (getChatMemory_frame env (Req.sessionId req) w) as (Ht1 & _ & _).
    set (cm := fst (Memory.getChatMemory env (Req.sessionId req) w)) in *.
    set (w1 := snd (Memory.getChatMemory env (Req.sessionId req) w)) in *.
    destruct (saveMessage_effect env cm Store.user (Some (JStr p)) w1) as (Ht2 & _).
    rewrite getMemory_up by apply Hup.
    rewrite Ht2, Ht1. unfold Facts.appended. rewrite Hup.
    rewrite filter_app. simpl filter at 2.
    unfold Db.ofSession at 2. simpl Store.sessionId. fold sid.
    rewrite String.eqb_refl. subst history. fold sid.
    change [{| role := Store.user; content := p |}]
      with (map Memory.toMessage
              [{| Store.sessionId := sid; Store.role := Store.user;
                  Store.content := p |}]).
    now rewrite <- map_app, firstn_map. }
  split; [exact H|].
  intros Hlen. rewrite H, firstn_app.
  replace (10 - List.length history)%nat with 0%nat by lia.
  simpl. now rewrite app_nil_r.
Qed.

Lemma injected_context_window_witness :
  Facts.injectedContext (Scenario.always Http.Rejected)
    (Scenario.ask (Some "s1") None "hello") "hello" Scenario.emptyWorld
  = Memory.formatMemoryForPrompt [{| role := Store.user; content := "hello" |}].
Proof.
  apply (proj1 (injected_context_window (Scenario.always Http.Rejected)
                  (Scenario.ask (Some "s1") None "hello") "hello" Scenario.emptyWorld
                  (fun _ => eq_refl))).
Defined.

(** X11. Generation does not depend on storage.  When every storage
    operation fails, a request with a prompt leaves the table as it was,
    injects no context, sends the prompt with only the attachments and the
    formatting instruction added, and a success reports
    [memoryContext: false]. *)
Theorem generation_survives_storage_failure :
  forall (env : Env) (req : Req.t) (p : string) (w : World),
    Req.prompt req = Some p -> p <> "" ->
    (forall k, dbUp env k = false) ->
    table (snd (Route.POST env req w)) = table w
    /\ Facts.injectedContext env req p w = ""
    /\ Facts.promptSent env req p w
       = Route.withStructure (Req.selectedApi req) (Route.withFiles (Req.files req) p)
    /\ forall payload : Route.Success,
         fst (Route.POST env req w) = Route.Ok payload ->
         Route.memoryContext payload = false.
Proof.
  intros env req p w Hp Hne Hdown.
  assert (Hmem : forall cm k v, fst (Memory.getMemory env cm k v) = []).
  { intros cm k v. unfold Memory.getMemory, Db.findMany. now rewrite Hdown. }
  assert (Hctx : Facts.injectedContext env req p w = "").
  { unfold Facts.injectedContext. rewrite recall_unfold. cbv zeta. simpl fst.
    now rewrite Hmem. }
  repeat split.
  - pose proof (POST_table env req p w Hp Hne) as Ht. cbv zeta in Ht.
    rewrite Ht. unfold Facts.appended. rewrite !Hdown.
    destruct (fst (Route.POST env req w)); simpl; now rewrite app_nil_r.
  - exact Hctx.
  - unfold Facts.promptSent, Route.enhance. now rewrite Hctx.
  - intros payload Hok.
    pose proof (recall_unfold env req p w) as Hrec. cbv zeta in Hrec.
    rewrite Hmem in Hrec.
    rewrite (POST_unfold env req p w _ _ _ _ Hp Hne Hrec) in Hok.
    destruct (tame_dispatch env req (Route.enhance req (Memory.formatMemoryForPrompt []) p)
                (snd (Memory.getMemory env
                        (fst (Memory.getChatMemory env (Req.sessionId req) w)) 10
                        (Memory.saveMessage env
                           (fst (Memory.getChatMemory env (Req.sessionId req) w))
                           Store.user (Some (JStr p))
                           (snd (Memory.getChatMemory env (Req.sessionId req) w))))))
      as (_ & _ & _ & _ & Hret).
    destruct (Route.dispatch env req _ _) as [[reply|e|r] w4]; simpl in Hok, Hret.
    + destruct (fst (Route.checkReply reply w4)) eqn:Hck; simpl in Hok.
      * inversion Hok; subst. reflexivity.
      * discriminate.
      * exfalso. eapply checkReply_no_return. exact Hck.
    + discriminate.
    + subst r. specialize (Hret _ eq_refl). discriminate.
Qed.

Lemma generation_survives_storage_failure_witness :
  table (snd (Route.POST
                {| net := fun _ _ => Scenario.textReply "hi"; dbUp := fun _ => false;
                   now := fun _ => 0%Z; random36 := fun _ => "r";
                   OPENAI_API_KEY := None |}
                (Scenario.ask (Some "s1") None "hello") Scenario.emptyWorld))
  = [].
Proof.
  apply (proj1 (generation_survives_storage_failure
                  {| net := fun _ _ => Scenario.textReply "hi"; dbUp := fun _ => false;
                     now := fun _ => 0%Z; random36 := fun _ => "r";
                     OPENAI_API_KEY := None |}
                  (Scenario.ask (Some "s1") None "hello") "hello" Scenario.emptyWorld
                  eq_refl ltac:(discriminate) (fun _ => eq_refl))).
Defined.

(** ** URL encoding *)

Section Encoding.

Import JsString Bounds.

Lemma chars_app (a b : string) :
  list_ascii_of_string (a ++ b) = (list_ascii_of_string a ++ list_ascii_of_string b)%list.
Proof. induction a as [|x a IH]; simpl; [reflexivity | now rewrite IH]. Qed.

Lemma hex_digit_alnum (n : nat) : (n < 16)%nat -> is_alnum (hex_digit true n) = true.
Proof.
  intros H. do 16 (destruct n as [|n]; [reflexivity|]). lia.
Qed.

Lemma hex_digit_inj (a b : nat) :
  (a < 16)%nat -> (b < 16)%nat -> hex_digit true a = hex_digit true b -> a = b.
Proof.
  intros Ha Hb.
  do 16 (destruct a as [|a]; [do 16 (destruct b as [|b];
                                     [first [reflexivity | discriminate]|]); lia|]).
  lia.
Qed.

Lemma nat_of_ascii_bound (c : ascii) : (nat_of_ascii c < 256)%nat.
Proof. destruct c as [[] [] [] [] [] [] [] []]; vm_compute; lia. Qed.

Lemma percent_chars (c x : ascii) :
  In x (list_ascii_of_string (percent c)) -> uriChar x = true /\ formChar x = true.
Proof.
  pose proof (nat_of_ascii_bound c) as Hb.
  assert (H1 : (nat_of_ascii c / 16 < 16)%nat) by (apply Nat.Div0.div_lt_upper_bound; lia).
  assert (H2 : (nat_of_ascii c mod 16 < 16)%nat) by (apply Nat.mod_upper_bound; lia).
  unfold percent. cbn [list_ascii_of_string In]. intros [<-|[<-|[<-|[]]]].
  - split; reflexivity.
  - unfold uriChar, formChar. now rewrite (hex_digit_alnum _ H1).
  - unfold uriChar, formChar. now rewrite (hex_digit_alnum _ H2).
Qed.

Lemma percent_inj (c d : ascii) : percent c = percent d -> c = d.
Proof.
  unfold percent. intros H.
  assert (Hq : hex_digit true (nat_of_ascii c / 16) = hex_digit true (nat_of_ascii d / 16))
    by congruence.
  assert (Hr : hex_digit true (nat_of_ascii c mod 16)
               = hex_digit true (nat_of_ascii d mod 16)) by congruence.
  pose proof (nat_of_ascii_bound c) as Hc. pose proof (nat_of_ascii_bound d) as Hd.
  apply hex_digit_inj in Hq;
    [| apply Nat.Div0.div_lt_upper_bound; lia | apply Nat.Div0.div_lt_upper_bound; lia].
  apply hex_digit_inj in Hr; [| apply Nat.mod_upper_bound; lia | apply Nat.mod_upper_bound; lia].
  rewrite <- (ascii_nat_embedding c), <- (ascii_nat_embedding d). f_equal.
  rewrite (Nat.div_mod_eq (nat_of_ascii c) 16), (Nat.div_mod_eq (nat_of_ascii d) 16).
  now rewrite Hq, Hr.
Qed.

Lemma mem_char_widen (c : ascii) (set set' : string) :
  mem_char c set = true ->
  (forall x, In x (list_ascii_of_string set) -> In x (list_ascii_of_string set')) ->
  mem_char c set' = true.
Proof.
  unfold mem_char. intros H Hsub. apply existsb_exists in H. destruct H as (x & Hin & Hx).
  apply existsb_exists. exists x. split; [now apply Hsub | exact Hx].
Qed.

Lemma separator_excluded (c : ascii) :
  uriChar c = true \/ formChar c = true -> mem_char c "/?#&= " = false.
Proof.
  destruct c as [[] [] [] [] [] [] [] []]; vm_compute; intros [H|H];
    first [reflexivity | discriminate].
Qed.

End Encoding.

(** X12. [encodeURIComponent] and the serializer of [URLSearchParams] put
    out only letters, digits, their unreserved marks and percent escapes:
    no slash, question mark, hash, ampersand, equals sign or space of the
    text survives, so a prompt or a parameter value cannot change the
    structure of the URL it is put into. *)
Theorem encoded_text_has_no_separators :
  forall (s : string) (c : ascii),
    (In c (list_ascii_of_string (JsString.encodeURIComponent s)) ->
     Bounds.uriChar c = true /\ JsString.mem_char c "/?#&= " = false)
    /\ (In c (list_ascii_of_string (JsString.formEncode s)) ->
        Bounds.formChar c = true /\ JsString.mem_char c "/?#&= " = false).
Proof.
  intros s c.
  assert (Huri : forall t, In c (list_ascii_of_string (JsString.encodeURIComponent t)) ->
                 Bounds.uriChar c = true).
  { induction t as [|x t IH]; [intros []|].
    cbn [JsString.encodeURIComponent].
    rewrite chars_app. intros H. apply in_app_or in H. destruct H as [H|H]; [|exact (IH H)].
    destruct (JsString.is_alnum x || JsString.mem_char x "-_.!~*'()") eqn:E.
    - simpl in H. destruct H as [<-|[]]. unfold Bounds.uriChar.
      apply orb_true_iff in E. destruct E as [E|E]; [now rewrite E|].
      apply orb_true_iff. right. apply (mem_char_widen _ _ _ E).
      simpl. intuition.
    - now apply (percent_chars x c). }
  assert (Hform : forall t, In c (list_ascii_of_string (JsString.formEncode t)) ->
                  Bounds.formChar c = true).
  { induction t as [|x t IH]; [intros []|].
    cbn [JsString.formEncode].
    rewrite chars_app. intros H. apply in_app_or in H. destruct H as [H|H]; [|exact (IH H)].
    destruct (JsString.is_alnum x || JsString.mem_char x "*-._") eqn:E.
    - simpl in H. destruct H as [<-|[]]. unfold Bounds.formChar.
      apply orb_true_iff in E. destruct E as [E|E]; [now rewrite E|].
      apply orb_true_iff. right. apply (mem_char_widen _ _ _ E).
      simpl. intuition.
    - destruct (Ascii.eqb x " ").
      + simpl in H. destruct H as [<-|[]]. reflexivity.
      + now apply (percent_chars x c). }
  split; intros H.
  - split; [exact (Huri s H) | apply separator_excluded; left; exact (Huri s H)].
  - split; [exact (Hform s H) | apply separator_excluded; right; exact (Hform s H)].
Qed.

Lemma encoded_text_has_no_separators_witness :
  Bounds.uriChar "%"%char = true /\ JsString.mem_char "%"%char "/?#&= " = false.
Proof.
  apply (proj1 (encoded_text_has_no_separators "a b" "%"%char)).
  vm_compute. auto.
Defined.

(** X13. [encodeURIComponent] loses nothing: two texts with the same
    encoding are the same text, so different prompts are fetched from
    different Pollinations URLs. *)
Theorem pollinationsUrl_injective :
  forall a b : string,
    (JsString.encodeURIComponent a = JsString.encodeURIComponent b -> a = b)
    /\ (Route.pollinationsUrl a = Route.pollinationsUrl b -> a = b).
Proof.
  assert (Happ : forall x r,
             JsString.percent x ++ r
             = String "%" (String (JsString.hex_digit true (nat_of_ascii x / 16))
                             (String (JsString.hex_digit true (nat_of_ascii x mod 16)) r)))
    by reflexivity.
  assert (Hinj : forall a b,
             JsString.encodeURIComponent a = JsString.encodeURIComponent b -> a = b).
  { induction a as [|x a IH]; intros [|y b]; cbn [JsString.encodeURIComponent].
    - reflexivity.
    - destruct (JsString.is_alnum y || JsString.mem_char y "-_.!~*'()");
        [|rewrite Happ]; discriminate.
    - destruct (JsString.is_alnum x || JsString.mem_char x "-_.!~*'()");
        [|rewrite Happ]; discriminate.
    - destruct (JsString.is_alnum x || JsString.mem_char x "-_.!~*'()") eqn:Ex;
        destruct (JsString.is_alnum y || JsString.mem_char y "-_.!~*'()") eqn:Ey;
        rewrite ?Happ; intros H.
      + change (String x (JsString.encodeURIComponent a)
                = String y (JsString.encodeURIComponent b)) in H.
        injection H as Hx Hr. subst y. f_equal. now apply IH.
      + change (String x (JsString.encodeURIComponent a)
                = String "%" (String (JsString.hex_digit true (nat_of_ascii y / 16))
                                (String (JsString.hex_digit true (nat_of_ascii y mod 16))
                                   (JsString.encodeURIComponent b)))) in H.
        assert (Hx : x = "%"%char) by congruence. subst x. discriminate Ex.
      + change (String "%" (String (JsString.hex_digit true (nat_of_ascii x / 16))
                              (String (JsString.hex_digit true (nat_of_ascii x mod 16))
                                 (JsString.encodeURIComponent a)))
                = String y (JsString.encodeURIComponent b)) in H.
        assert (Hy : y = "%"%char) by congruence. subst y. discriminate Ey.
      + assert (Hp : JsString.percent x = JsString.percent y)
          by (unfold JsString.percent; congruence).
        apply percent_inj in Hp. subst y. f_equal. apply IH. congruence. }
  intros a b. split; [apply Hinj|].
  unfold Route.pollinationsUrl. intros H. apply Hinj.
  revert H. generalize (JsString.encodeURIComponent a) (JsString.encodeURIComponent b).
  intros u v H. cbn [String.append] in H. congruence.
Qed.

Lemma pollinationsUrl_injective_witness :
  Route.pollinationsUrl "a b" = "https://text.pollinations.ai/a%20b" /\ "a b" = "a b".
Proof.
  split; [reflexivity|].
  apply (proj2 (pollinationsUrl_injective "a b" "a b")). reflexivity.
Defined.

(** ** The [GET] handler of the text route *)

(** X14. The [GET] handler never touches the session memory: the table,
    the singleton and the counters are what they were.  Without a prompt it
    answers 400 and fetches nothing; with one it makes exactly one fetch,
    and it answers 200 exactly when that fetch resolves with a success
    status, then with the text of the body and the model name, [openai]
    when none was given. *)
Theorem GET_fetches_once_and_keeps_memory :
  forall (env : Env) (q : TextGet.Query) (w : World),
    let a := fst (TextGet.GET env q w) in
    let w' := snd (TextGet.GET env q w) in
    table w' = table w /\ currentMemory w' = currentMemory w
    /\ dbOps w' = dbOps w /\ minted w' = minted w
    /\ (present (TextGet.prompt q) = false ->
        a = TextGet.BadRequest "Prompt is required" /\ w' = w)
    /\ (forall p : string,
          TextGet.prompt q = Some p -> p <> "" ->
          fetched w' = (fetched w ++ [TextGet.callOf q p])%list
          /\ (forall r : Http.Response,
                net env (List.length (fetched w)) (TextGet.callOf q p) = Http.Resolved r ->
                Http.ok r = true ->
                a = TextGet.Ok (Http.bodyText r) (orElse (TextGet.model q) "openai"))
          /\ (TextGet.statusOf a = 200%Z ->
              exists r : Http.Response,
                net env (List.length (fetched w)) (TextGet.callOf q p) = Http.Resolved r
                /\ Http.ok r = true)).
Proof.
  intros env q w. cbv zeta. unfold TextGet.GET.
  destruct (TextGet.prompt q) as [p|] eqn:Hp.
  2:{ simpl. repeat split; try reflexivity; intros; discriminate. }
  destruct (String.eqb_spec p "") as [->|Hne].
  { simpl. repeat split; try reflexivity; intros; congruence. }
  assert (Hpres : present (Some p) = true)
    by (simpl; apply negb_true_iff, String.eqb_neq; exact Hne).
  destruct (net env (List.length (fetched w)) (TextGet.callOf q p)) as [|r] eqn:Hnet;
    [|destruct (Http.ok r) eqn:Hok]; simpl fst; simpl snd;
    (split; [reflexivity|]); (split; [reflexivity|]); (split; [reflexivity|]);
    (split; [reflexivity|]); (split; [intros H; congruence|]);
    intros p' Hp' Hne'; injection Hp' as <-; rewrite Hnet;
    (split; [reflexivity|]); split.
  - intros r Hr. discriminate.
  - simpl. intros H; discriminate.
  - intros r' Hr' _. injection Hr' as <-. reflexivity.
  - intros _. eauto.
  - intros r' Hr' Hok'. injection Hr' as <-. congruence.
  - simpl. intros H; discriminate.
Qed.

Lemma GET_fetches_once_and_keeps_memory_witness :
  fst (TextGet.GET (Scenario.always (Scenario.textReply "hi"))
         {| TextGet.prompt := Some "hello"; TextGet.model := None; TextGet.seed := None;
            TextGet.temperature := None; TextGet.max_tokens := None |}
         Scenario.emptyWorld)
  = TextGet.Ok "hi" "openai".
Proof.
  apply (proj1 (proj2 (proj2 (proj2 (proj2 (proj2 (proj2
           (GET_fetches_once_and_keeps_memory
              (Scenario.always (Scenario.textReply "hi"))
              {| TextGet.prompt := Some "hello"; TextGet.model := None;
                 TextGet.seed := None; TextGet.temperature := None;
                 TextGet.max_tokens := None |}
              Scenario.emptyWorld)))))
           "hello" eq_refl ltac:(discriminate)))
           {| Http.status := 200; Http.bodyText := "hi"; Http.bodyJson := None |}
           eq_refl eq_refl).
Defined.

(** X15. The Pollinations branch of [POST] and the [GET] handler fetch the
    same call for the same text and the same model, seed, temperature and
    token limit. *)
Theorem pollinations_branch_calls_like_GET :
  forall (env : Env) (req : Req.t) (text : string) (w : World),
    fetched (snd (Route.pollinations env req text w))
    = (fetched w
       ++ [TextGet.callOf
             {| TextGet.prompt := Some text; TextGet.model := Req.model req;
                TextGet.seed := Req.seed req; TextGet.temperature := Req.temperature req;
                TextGet.max_tokens := Req.maxTokens req |} text])%list.
Proof.
  intros env req text w.
  assert (Hsame :
            (if present (Req.model req) && negb (equals (Req.model req) "OpenAI")
                && negb (equals (Req.model req) "openai")
             then [("model", JsString.toLowerCase (orElse (Req.model req) ""))] else [])
            = (if negb (orElse (Req.model req) "openai" =? "")
                  && negb (orElse (Req.model req) "openai" =? "OpenAI")
                  && negb (orElse (Req.model req) "openai" =? "openai")
               then [("model", JsString.toLowerCase (orElse (Req.model req) "openai"))]
               else [])).
  { destruct (Req.model req) as [m|]; simpl; [|reflexivity].
    destruct (m =? "") eqn:E; simpl; rewrite ?E; reflexivity. }
  unfold Route.pollinations, TextGet.callOf, TextGet.urlOf, Route.pollinationsUrl.
  cbn [TextGet.model TextGet.seed TextGet.temperature TextGet.max_tokens].
  rewrite Hsame. unfold Route.bindM, Route.fetch.
  match goal with |- context [net env ?k ?c] => destruct (net env k c) as [|r] end;
    [reflexivity|].
  now destruct (Http.ok r).
Qed.

(** ** The memory route *)

Section MemoryRouteFacts.

Variable env : Env.

Lemma getChatMemory_for (s : string) (w : World) :
  s <> "" ->
  Memory.getSessionId (fst (Memory.getChatMemory env (MemoryRoute.orUndefined (Some s)) w))
  = s.
Proof.
  intros Hs. unfold MemoryRoute.orUndefined. simpl.
  apply String.eqb_neq in Hs. rewrite Hs. simpl.
  apply getChatMemory_given. now apply String.eqb_neq.
Qed.

(** The singleton after a request of the text route that has a prompt. *)
Lemma POST_current (req : Req.t) (p : string) (w : World) :
  Req.prompt req = Some p -> p <> "" ->
  currentMemory (snd (Route.POST env req w))
  = Some (fst (Memory.getChatMemory env (Req.sessionId req) w)).
Proof.
  intros Hp Hne.
  assert (exists cm mem ctx w3,
             Route.recall env req p w = (Route.Value (cm, mem, ctx), w3))
    as (cm & mem & ctx & w3 & Hrec) by (rewrite recall_unfold; eauto 6).
  destruct (recall_effect _ _ _ _ _ _ _ _ Hrec) as (Hcm & _ & _ & _ & _ & Hcur).
  rewrite (POST_unfold env req p w w3 cm mem ctx Hp Hne Hrec), <- Hcm.
  destruct (tame_dispatch env req (Route.enhance req ctx p) w3) as (_ & _ & Hc & _).
  destruct (Route.dispatch env req (Route.enhance req ctx p) w3) as [[reply|e|r] w4];
    simpl in Hc; simpl; try congruence.
  destruct (fst (Route.checkReply reply w4)); simpl; try congruence.
  destruct (saveMessage_effect env cm Store.assistant (snd reply) w4) as (_ & _ & _ & Hs).
  congruence.
Qed.

End MemoryRouteFacts.

(** X16. With storage working, a message saved through [POST] of the
    memory route is what [GET] of the same session then returns last:
    the history is the turns the session had, then that message, and the
    count is one more. *)
Theorem memory_route_save_then_read :
  forall (env : Env) (sid text : string) (r : Store.Role) (action : option string)
         (w : World),
    (forall k, dbUp env k = true) ->
    sid <> "" -> equals action "clear" = false ->
    let saved :=
      MemoryRoute.POST env
        {| MemoryRoute.action := Some "save"; MemoryRoute.sessionId := Some sid;
           MemoryRoute.message :=
             Some {| MemoryRoute.role := r; MemoryRoute.content := Some (JStr text) |} |}
        w in
    let old := map Memory.toMessage (filter (Db.ofSession sid) (table w)) in
    fst saved = MemoryRoute.Saved sid
    /\ fst (MemoryRoute.GET env (Some sid) action (snd saved))
       = MemoryRoute.History (old ++ [{| role := r; content := text |}])%list sid
           (S (List.length old)).
Proof.
  intros env sid text r action w Hup Hsid Hact. cbv zeta.
  unfold MemoryRoute.POST. cbn [MemoryRoute.action MemoryRoute.sessionId MemoryRoute.message
                                  MemoryRoute.role MemoryRoute.content equals].
  simpl String.eqb. cbv iota.
  pose proof (getChatMemory_for env sid w Hsid) as Hid.
  destruct (getChatMemory_frame env (MemoryRoute.orUndefined (Some sid)) w) as (Ht1 & _).
  pose proof (getChatMemory_current env (MemoryRoute.orUndefined (Some sid)) w) as Hc1.
  destruct (Memory.getChatMemory env (MemoryRoute.orUndefined (Some sid)) w) as [cm w1].
  simpl in Hid, Ht1, Hc1. simpl fst. simpl snd. rewrite Hid. split; [reflexivity|].
  destruct (saveMessage_effect env cm r (Some (JStr text)) w1) as (Ht2 & _ & _ & Hc2).
  set (w2 := Memory.saveMessage env cm r (Some (JStr text)) w1) in *.
  unfold MemoryRoute.GET. rewrite Hact.
  pose proof (getChatMemory_for env sid w2 Hsid) as Hid2.
  destruct (getChatMemory_frame env (MemoryRoute.orUndefined (Some sid)) w2) as (Ht3 & _).
  destruct (Memory.getChatMemory env (MemoryRoute.orUndefined (Some sid)) w2) as [cm2 w3].
  simpl in Hid2, Ht3.
  pose proof (getFullMemory_read env cm2 w3) as Hread. rewrite Hup, Hid2, Ht3, Ht2 in Hread.
  destruct (Memory.getFullMemory env cm2 w3) as [memory w4]. simpl in Hread. subst memory.
  rewrite Hid2, Hid, Ht1. unfold Facts.appended. rewrite Hup.
  assert (Hrow : filter (Db.ofSession sid)
                   [{| Store.sessionId := sid; Store.role := r; Store.content := text |}]
                 = [{| Store.sessionId := sid; Store.role := r; Store.content := text |}]).
  { simpl. unfold Db.ofSession. simpl. now rewrite String.eqb_refl. }
  rewrite filter_app, Hrow, map_app. simpl fst.
  rewrite !length_app. simpl. rewrite Nat.add_1_r. reflexivity.
Qed.

Lemma memory_route_save_then_read_witness :
  fst (MemoryRoute.GET (Scenario.always Http.Rejected) (Some "s1") None
         (snd (MemoryRoute.POST (Scenario.always Http.Rejected)
                 {| MemoryRoute.action := Some "save"; MemoryRoute.sessionId := Some "s1";
                    MemoryRoute.message :=
                      Some {| MemoryRoute.role := Store.user;
                              MemoryRoute.content := Some (JStr "note") |} |}
                 Scenario.emptyWorld)))
  = MemoryRoute.History [{| role := Store.user; content := "note" |}] "s1" 1.
Proof.
  apply (proj2 (memory_route_save_then_read (Scenario.always Http.Rejected) "s1" "note"
                  Store.user None Scenario.emptyWorld (fun _ => eq_refl)
                  ltac:(discriminate) eq_refl)).
Defined.

(** X17. With storage working, [GET] with [action=clear] empties the
    session it names and no other: the next [GET] of that session returns
    no turn and the count 0, and the rows of the other sessions are kept. *)
Theorem memory_route_clear_then_read :
  forall (env : Env) (sid : string) (action : option string) (w : World),
    (forall k, dbUp env k = true) ->
    sid <> "" -> equals action "clear" = false ->
    let cleared := MemoryRoute.GET env (Some sid) (Some "clear") w in
    fst cleared = MemoryRoute.Cleared sid
    /\ fst (MemoryRoute.GET env (Some sid) action (snd cleared))
       = MemoryRoute.History [] sid 0
    /\ forall other : string,
         other <> sid ->
         filter (Db.ofSession other) (table (snd cleared))
         = filter (Db.ofSession other) (table w).
Proof.
  intros env sid action w Hup Hsid Hact. cbv zeta.
  unfold MemoryRoute.GET at 1 3 4. simpl equals. cbv iota.
  pose proof (getChatMemory_for env sid w Hsid) as Hid.
  destruct (getChatMemory_frame env (MemoryRoute.orUndefined (Some sid)) w) as (Ht1 & _ & Hd1).
  destruct (Memory.getChatMemory env (MemoryRoute.orUndefined (Some sid)) w) as [cm w1].
  simpl in Hid, Ht1, Hd1. simpl fst. simpl snd. rewrite Hid.
  split; [reflexivity|].
  destruct (clearMemory_effect env cm w1) as (Ht2 & _). rewrite Hup, Hid, Ht1 in Ht2.
  set (w2 := Memory.clearMemory env cm w1) in *.
  split.
  - unfold MemoryRoute.GET. rewrite Hact.
    pose proof (getChatMemory_for env sid w2 Hsid) as Hid2.
    destruct (getChatMemory_frame env (MemoryRoute.orUndefined (Some sid)) w2) as (Ht3 & _).
    destruct (Memory.getChatMemory env (MemoryRoute.orUndefined (Some sid)) w2) as [cm2 w3].
    simpl in Hid2, Ht3.
    pose proof (getFullMemory_read env cm2 w3) as Hread.
    rewrite Hup, Hid2, Ht3, Ht2, filter_cleared_same in Hread.
    destruct (Memory.getFullMemory env cm2 w3) as [memory w4]. simpl in Hread. subst memory.
    now rewrite Hid2.
  - intros other Hother. rewrite Ht2. now apply filter_cleared_other.
Qed.

Lemma memory_route_clear_then_read_witness :
  fst (MemoryRoute.GET (Scenario.always Http.Rejected) (Some "s1") None
         (snd (MemoryRoute.GET (Scenario.always Http.Rejected) (Some "s1") (Some "clear")
                 {| table := [Scenario.turn "s1" Store.user "one"];
                    currentMemory := None; fetched := []; dbOps := 0; minted := 0 |})))
  = MemoryRoute.History [] "s1" 0.
Proof.
  apply (proj1 (proj2 (memory_route_clear_then_read (Scenario.always Http.Rejected) "s1"
                         None
                         {| table := [Scenario.turn "s1" Store.user "one"];
                            currentMemory := None; fetched := []; dbOps := 0;
                            minted := 0 |}
                         (fun _ => eq_refl) ltac:(discriminate) eq_refl))).
Defined.

(** X18. [POST] of the memory route answers 400 and leaves the table as
    it was when the action is neither [clear] nor a [save] with a message.
    The session is resolved before the action is checked, so even then the
    session id of the body becomes the session of the singleton. *)
Theorem memory_route_invalid_post :
  forall (env : Env) (body : MemoryRoute.Body) (w : World),
    equals (MemoryRoute.action body) "clear" = false ->
    equals (MemoryRoute.action body) "save" = false \/ MemoryRoute.message body = None ->
    fst (MemoryRoute.POST env body w) = MemoryRoute.Invalid
    /\ table (snd (MemoryRoute.POST env body w)) = table w
    /\ dbOps (snd (MemoryRoute.POST env body w)) = dbOps w
    /\ forall s : string,
         MemoryRoute.sessionId body = Some s -> s <> "" ->
         exists cm : ChatMemory,
           currentMemory (snd (MemoryRoute.POST env body w)) = Some cm
           /\ Memory.getSessionId cm = s.
Proof.
  intros env body w Hclear Hsave. unfold MemoryRoute.POST.
  destruct (getChatMemory_frame env (MemoryRoute.orUndefined (MemoryRoute.sessionId body)) w)
    as (Ht & _ & Hd).
  pose proof (getChatMemory_current env
                (MemoryRoute.orUndefined (MemoryRoute.sessionId body)) w) as Hc.
  assert (Hid : forall s, MemoryRoute.sessionId body = Some s -> s <> "" ->
                  Memory.getSessionId
                    (fst (Memory.getChatMemory env
                            (MemoryRoute.orUndefined (MemoryRoute.sessionId body)) w)) = s).
  { intros s Hs Hne. rewrite Hs. now apply getChatMemory_for. }
  destruct (Memory.getChatMemory env
              (MemoryRoute.orUndefined (MemoryRoute.sessionId body)) w) as [cm w1].
  simpl in Ht, Hd, Hc, Hid.
  assert (Hnone : (if equals (MemoryRoute.action body) "save"
                   then MemoryRoute.message body else None) = None).
  { destruct Hsave as [H|H]; rewrite H; [reflexivity|].
    now destruct (equals (MemoryRoute.action body) "save"). }
  rewrite Hnone, Hclear. simpl. repeat split; auto.
  intros s Hs Hne. exists cm. split; [exact Hc | now apply Hid].
Qed.

Lemma memory_route_invalid_post_witness :
  fst (MemoryRoute.POST (Scenario.always Http.Rejected)
         {| MemoryRoute.action := Some "save"; MemoryRoute.sessionId := Some "s9";
            MemoryRoute.message := None |}
         Scenario.emptyWorld)
  = MemoryRoute.Invalid.
Proof.
  apply (proj1 (memory_route_invalid_post (Scenario.always Http.Rejected)
                  {| MemoryRoute.action := Some "save"; MemoryRoute.sessionId := Some "s9";
                     MemoryRoute.message := None |}
                  Scenario.emptyWorld eq_refl (or_intror eq_refl))).
Defined.

(** X19. The memory route reads the session of the last request when it
    is given no session id: after a request of the text route for session
    [s], [GET] of the memory route without [sessionId] reports [s] and
    returns the turns of [s]. *)
Theorem memory_GET_without_session_reads_current :
  forall (env : Env) (req : Req.t) (p s : string) (action : option string) (w : World),
    Req.prompt req = Some p -> p <> "" ->
    Req.sessionId req = Some s -> s <> "" ->
    equals action "clear" = false ->
    let w1 := snd (Route.POST env req w) in
    fst (MemoryRoute.GET env None action w1)
    = MemoryRoute.History
        (fst (Memory.getFullMemory env {| sessionId := s |} w1)) s
        (List.length (fst (Memory.getFullMemory env {| sessionId := s |} w1))).
Proof.
  intros env req p s action w Hp Hne Hs Hsne Hact w1.
  pose proof (POST_current env req p w Hp Hne) as Hcur. fold w1 in Hcur.
  pose proof (getChatMemory_given env s w Hsne) as Hid. rewrite <- Hs in Hid.
  destruct (fst (Memory.getChatMemory env (Req.sessionId req) w)) as [sid'].
  simpl in Hid. subst sid'.
  unfold MemoryRoute.GET.
  change (MemoryRoute.orUndefined None) with (@None string).
  unfold Memory.getChatMemory. rewrite Hcur, Hact.
  now destruct (Memory.getFullMemory env {| sessionId := s |} w1).
Qed.

Lemma memory_GET_without_session_reads_current_witness :
  fst (MemoryRoute.GET (Scenario.always (Scenario.textReply "hi")) None None
         (snd (Route.POST (Scenario.always (Scenario.textReply "hi"))
                 (Scenario.ask (Some "s1") None "hello") Scenario.emptyWorld)))
  = MemoryRoute.History
      [{| role := Store.user; content := "hello" |};
       {| role := Store.assistant; content := "hi" |}] "s1" 2.
Proof.
  apply (memory_GET_without_session_reads_current
           (Scenario.always (Scenario.textReply "hi"))
           (Scenario.ask (Some "s1") None "hello") "hello" "s1" None Scenario.emptyWorld
           eq_refl ltac:(discriminate) eq_refl ltac:(discriminate) eq_refl).
Defined.

(** ** The local route and the attachments *)

(** X20. The [ollama] and [openai] formats of the local route never give
    the payload serialised: on a payload that is not null, [ollama] gives
    the first truthy of [response] and [text], [openai] the first truthy of
    [choices[0].message.content] and [response], and both give the empty
    string when there is none. *)
Theorem local_formats_fall_back_to_empty :
  forall data : json,
    data <> JNull ->
    Local.extractResponseText "ollama" data
    = Val (if truthy (member data "response") then member data "response"
           else if truthy (member data "text") then member data "text"
           else Some (JStr ""))
    /\ Local.extractResponseText "openai" data
       = Val (if truthy (Facts.choiceContent data) then Facts.choiceContent data
              else if truthy (member data "response") then member data "response"
              else Some (JStr "")).
Proof.
  intros data Hnn. unfold Local.extractResponseText, Facts.choiceContent.
  simpl String.eqb. cbv iota. rewrite !get_member by assumption. split.
  - destruct (truthy (member data "response")) eqn:E1;
      rewrite orM_Val, E1; [now rewrite orM_Val, E1|].
    rewrite orM_Val. now destruct (truthy (member data "text")).
  - unfold bind. fold (optGet0 (member data "choices")).
    destruct (truthy (optGet (optGet (optGet0 (member data "choices")) "message") "content"))
      eqn:E1; rewrite orM_Val, E1; [now rewrite orM_Val, E1|].
    rewrite orM_Val. now destruct (truthy (member data "response")).
Qed.

Lemma local_formats_fall_back_to_empty_witness :
  Local.extractResponseText "ollama" (JObj [("response", JStr "hi")]) = Val (Some (JStr "hi")).
Proof.
  apply (proj1 (local_formats_fall_back_to_empty (JObj [("response", JStr "hi")])
                  ltac:(discriminate))).
Defined.

(** X21. Only the attachments that pass the text-file test reach the
    prompt: the prompt with a list of attachments is the prompt with its
    text files alone, and it is the prompt without attachments when none of
    them is a text file. *)
Theorem withFiles_uses_text_files_only :
  forall (files : list Req.File) (enhancedPrompt : string),
    Route.withFiles (Some files) enhancedPrompt
    = Route.withFiles (Some (filter Route.isTextFile files)) enhancedPrompt
    /\ (filter Route.isTextFile files = [] ->
        Route.withFiles (Some files) enhancedPrompt = enhancedPrompt).
Proof.
  intros files ep. unfold Route.withFiles. rewrite filter_idempotent.
  destruct (filter Route.isTextFile files) as [|f fs] eqn:E.
  - split; [|intros _]; now destruct files.
  - split; [|discriminate].
    destruct files as [|g gs]; [discriminate|]. reflexivity.
Qed.

Lemma withFiles_uses_text_files_only_witness :
  Route.withFiles
    (Some [{| Req.name := "photo.png"; Req.type := "image/png"; Req.content := "...." |}])
    "hello"
  = "hello".
Proof.
  apply (proj2 (withFiles_uses_text_files_only
                  [{| Req.name := "photo.png"; Req.type := "image/png";
                      Req.content := "...." |}] "hello")).
  reflexivity.
Defined.

(** ** The OpenAI branch: which key is sent *)

Section OpenAiKey.

Import Route Bounds.

Variable env : Env.

(** A fetch followed only by reading of the response logs that one call. *)
Lemma fetch_then_logs {B} (call : Http.FetchCall) (k : Http.Response -> M B) (w : World) :
  (forall r, fetchesAtMost 0 (k r)) ->
  fetched (snd (bindM (fetch env call) k w)) = (fetched w ++ [call])%list.
Proof.
  intros Hk. unfold bindM, fetch.
  destruct (net env (List.length (fetched w)) call) as [|r]; [reflexivity|].
  destruct (Hk r (logFetch w call)) as (calls & Hf & Hl).
  destruct calls; [|simpl in Hl; lia]. now rewrite Hf, app_nil_r.
Qed.

(** The log of fetches after [POST] is the log after the dispatch. *)
Lemma POST_fetched (req : Req.t) (p : string) (w w3 : World)
    (cm : ChatMemory) (mem : list ChatMessage) (ctx : string) :
  Req.prompt req = Some p -> p <> "" ->
  recall env req p w = (Value (cm, mem, ctx), w3) ->
  fetched (snd (POST env req w))
  = fetched (snd (dispatch env req (enhance req ctx p) w3)).
Proof.
  intros Hp Hne Hrec. rewrite (POST_unfold env req p w w3 cm mem ctx Hp Hne Hrec).
  destruct (dispatch env req (enhance req ctx p) w3) as [[reply|e|r] w4]; try reflexivity.
  destruct (fst (checkReply reply w4)); try reflexivity. simpl.
  now destruct (saveMessage_effect env cm Store.assistant (snd reply) w4)
    as (_ & _ & Hs & _).
Qed.

End OpenAiKey.

(** X22. In the OpenAI branch the key of [selectedApiConfig] comes before
    [OPENAI_API_KEY]: the request makes one fetch, a [POST] to the chat
    completions URL whose [Authorization] header is [Bearer] followed by the
    key of the configuration when it has one, and by the key of the process
    otherwise. *)
Theorem openai_key_precedence :
  forall (env : Env) (req : Req.t) (p key : string) (w : World),
    Req.prompt req = Some p -> p <> "" ->
    Req.selectedApi req = Some "openai" ->
    (if present (Route.configKey req) then Route.configKey req else OPENAI_API_KEY env)
    = Some key ->
    key <> "" ->
    exists (call : Http.FetchCall) (init : Http.FetchInit),
      fetched (snd (Route.POST env req w)) = (fetched w ++ [call])%list
      /\ Http.url call = "https://api.openai.com/v1/chat/completions"
      /\ Http.init call = Some init
      /\ Http.method init = "POST"
      /\ Http.headers init
         = [("Content-Type", "application/json"); ("Authorization", "Bearer " ++ key)].
Proof.
  intros env req p key w Hp Hne Hsel Hkey Hkne.
  assert (exists cm mem ctx w3,
             Route.recall env req p w = (Route.Value (cm, mem, ctx), w3))
    as (cm & mem & ctx & w3 & Hrec) by (rewrite recall_unfold; eauto 6).
  destruct (recall_effect _ _ _ _ _ _ _ _ Hrec) as (_ & _ & _ & _ & Hf & _).
  rewrite (POST_fetched env req p w w3 cm mem ctx Hp Hne Hrec).
  unfold Route.dispatch. rewrite Hsel.
  change (equals (Some "openai") "openai") with true. cbv iota.
  unfold Route.openai. rewrite Hkey.
  assert (Hpres : present (Some key) = true)
    by (simpl; apply negb_true_iff, String.eqb_neq; exact Hkne).
  assert (Hor : orElse (Some key) "" = key)
    by (simpl; apply String.eqb_neq in Hkne; now rewrite Hkne).
  rewrite Hpres, Hor. cbv beta iota zeta delta [negb].
  rewrite fetch_then_logs.
  - eexists. eexists. rewrite Hf. repeat split; reflexivity.
  - intros r. destruct (Http.ok r); [|apply atMost_ret].
    apply (atMost_bind 0 0); [apply atMost_json|]. intros data.
    apply (atMost_bind 0 0); [apply atMost_lift|]. intros v. apply atMost_ret.
Qed.

Lemma openai_key_precedence_witness :
  exists (call : Http.FetchCall) (init : Http.FetchInit),
    fetched (snd (Route.POST
                    {| net := fun _ _ => Scenario.textReply "hi"; dbUp := fun _ => true;
                       now := fun _ => 0%Z; random36 := fun _ => "r";
                       OPENAI_API_KEY := Some "sk-env" |}
                    (Scenario.askWith (Scenario.withKey "openai") (Some "s1")
                       (Some "openai") "hello")
                    Scenario.emptyWorld))
    = (fetched Scenario.emptyWorld ++ [call])%list
    /\ Http.url call = "https://api.openai.com/v1/chat/completions"
    /\ Http.init call = Some init
    /\ Http.method init = "POST"
    /\ Http.headers init
       = [("Content-Type", "application/json"); ("Authorization", "Bearer " ++ "sk-test")].
Proof.
  apply (openai_key_precedence
           {| net := fun _ _ => Scenario.textReply "hi"; dbUp := fun _ => true;
              now := fun _ => 0%Z; random36 := fun _ => "r";
              OPENAI_API_KEY := Some "sk-env" |}
           (Scenario.askWith (Scenario.withKey "openai") (Some "s1") (Some "openai") "hello")
           "hello" "sk-test" Scenario.emptyWorld
           eq_refl ltac:(discriminate) eq_refl eq_refl ltac:(discriminate)).
Defined.

(** ** The shape of the Pollinations URL *)

Section UrlShape.

Import JsString Bounds.

Lemma concat_chars (l : list string) (c : ascii) :
  In c (list_ascii_of_string (String.concat "&" l)) ->
  c = "&"%char \/ exists s, In s l /\ In c (list_ascii_of_string s).
Proof.
  induction l as [|x l IH]; [intros []|].
  destruct l as [|y l].
  - simpl. intros H. right. exists x. split; [now left | exact H].
  - change (String.concat "&" (x :: y :: l)) with (x ++ "&" ++ String.concat "&" (y :: l)).
    rewrite !chars_app. intros H.
    apply in_app_or in H. destruct H as [H|H].
    + right. exists x. split; [now left | exact H].
    + apply in_app_or in H. destruct H as [H|H].
      * simpl in H. destruct H as [<-|[]]. now left.
      * destruct (IH H) as [->|(s & Hs & Hc)]; [now left|].
        right. exists s. split; [now right | exact Hc].
Qed.

Lemma query_chars (params : list (string * string)) (c : ascii) :
  In c (list_ascii_of_string (searchParamsToString params)) ->
  mem_char c "/?# " = false.
Proof.
  assert (Hsafe : forall x : ascii,
             formChar x = true \/ x = "&"%char \/ x = "="%char ->
             mem_char x "/?# " = false).
  { intros x. destruct x as [[] [] [] [] [] [] [] []]; vm_compute;
      intros [H|[H|H]]; first [reflexivity | discriminate]. }
  assert (Hform : forall t x, In x (list_ascii_of_string (formEncode t)) -> formChar x = true).
  { induction t as [|y t IH]; [intros x []|]. intros x.
    cbn [formEncode]. rewrite chars_app. intros H.
    apply in_app_or in H. destruct H as [H|H]; [|exact (IH x H)].
    destruct (is_alnum y || mem_char y "*-._") eqn:E.
    - simpl in H. destruct H as [<-|[]]. unfold formChar.
      apply orb_true_iff in E. destruct E as [E|E]; [now rewrite E|].
      apply orb_true_iff. right. apply (mem_char_widen _ _ _ E). simpl. intuition.
    - destruct (Ascii.eqb y " ").
      + simpl in H. destruct H as [<-|[]]. reflexivity.
      + now apply (percent_chars y x). }
  unfold searchParamsToString. intros H.
  apply concat_chars in H. destruct H as [->|(s & Hs & Hc)]; [reflexivity|].
  apply in_map_iff in Hs. destruct Hs as ((k & v) & <- & _). simpl fst in Hc. simpl snd in Hc.
  rewrite !chars_app in Hc. apply Hsafe.
  apply in_app_or in Hc. destruct Hc as [Hc|Hc]; [left; exact (Hform _ _ Hc)|].
  apply in_app_or in Hc. destruct Hc as [Hc|Hc]; [|left; exact (Hform _ _ Hc)].
  simpl in Hc. destruct Hc as [<-|[]]. right. now right.
Qed.

Lemma path_chars (prompt : string) (c : ascii) :
  In c (list_ascii_of_string (encodeURIComponent prompt)) ->
  mem_char c "/?#&= " = false.
Proof.
  revert c. induction prompt as [|y t IH]; [intros c []|]. intros c.
  cbn [encodeURIComponent]. rewrite chars_app. intros H.
  apply in_app_or in H. destruct H as [H|H]; [|exact (IH c H)].
  apply separator_excluded. left.
  destruct (is_alnum y || mem_char y "-_.!~*'()") eqn:E.
  - simpl in H. destruct H as [<-|[]]. unfold uriChar.
    apply orb_true_iff in E. destruct E as [E|E]; [now rewrite E|].
    apply orb_true_iff. right. apply (mem_char_widen _ _ _ E). simpl. intuition.
  - now apply (percent_chars y c).
Qed.

End UrlShape.

(** X12. The prompt and the parameters cannot change the structure of the
    URL that is fetched from Pollinations.  The URL is the fixed base, then
    a path segment made from the prompt that has no slash, question mark,
    hash, ampersand, equals sign or space, then either nothing or a
    question mark and a query that has no slash, question mark, hash or
    space. *)
Theorem pollinations_url_structure :
  forall (q : TextGet.Query) (prompt : string),
    exists path query : string,
      TextGet.urlOf q prompt
      = "https://text.pollinations.ai/" ++ path
        ++ (if query =? "" then "" else "?" ++ query)
      /\ Route.pollinationsUrl prompt = "https://text.pollinations.ai/" ++ path
      /\ (forall c, In c (list_ascii_of_string path) ->
                    JsString.mem_char c "/?#&= " = false)
      /\ (forall c, In c (list_ascii_of_string query) ->
                    JsString.mem_char c "/?# " = false).
Proof.
  intros q prompt. unfold TextGet.urlOf.
  match goal with |- context [JsString.searchParamsToString ?ps] => set (params := ps) end.
  exists (JsString.encodeURIComponent prompt), (JsString.searchParamsToString params).
  split; [|split; [reflexivity|split]].
  - assert (Hnil : forall t : string, t ++ "" = t)
      by (induction t as [|x t IH]; simpl; [reflexivity | now rewrite IH]).
    destruct (JsString.searchParamsToString params =? ""); simpl negb; cbv iota.
    + now rewrite Hnil.
    + now rewrite append_assoc.
  - intros c. apply path_chars.
  - intros c. apply query_chars.
Qed.
